(** * ORM event interfaces (lib/sqlalchemy/orm/events.py)

    A shallow embedding of the five event classes of the module
    (InstrumentationEvents, InstanceEvents, MapperEvents, SessionEvents,
    AttributeEvents): their [accept_with], [listen] and [remove] class
    methods and the [wrap] closures that [listen] builds around a user
    callback.

    The module is glue over a host framework (the event core
    [event.Events], mappers, sessions, class managers).  The host is a
    record [Host] of operations over a host state; calls to
    [event.Events.listen] are recorded in a log, so that "what is
    registered with the event core" is what appears in that log. *)

From Stdlib Require Import String List ZArith Bool Lia.
Import ListNotations.
Open Scope string_scope.
Local Set Warnings "-register-all".

(** ** Python values *)

(** A new-style class: its name and its direct bases. *)
Inductive classref : Type :=
| Class (name : string) (bases : list classref).

Definition object_ : classref := Class "object" [].
Definition type_ : classref := Class "type" [object_].
Definition NoneType_ : classref := Class "NoneType" [object_].
Definition int_ : classref := Class "int" [object_].
Definition bool_ : classref := Class "bool" [int_].
Definition str_ : classref := Class "str" [object_].
Definition function_ : classref := Class "function" [object_].

Fixpoint classref_eqb (c d : classref) : bool :=
  match c, d with
  | Class n bs, Class m ds =>
      String.eqb n m &&
      (fix all2 (xs ys : list classref) : bool :=
         match xs, ys with
         | [], [] => true
         | x :: xs', y :: ys' => classref_eqb x y && all2 xs' ys'
         | _, _ => false
         end) bs ds
  end.

(** [issubclass(c, d)] on two classes: [d] is [c] or an ancestor of [c]. *)
Fixpoint issubclass (c d : classref) : bool :=
  classref_eqb c d ||
  match c with
  | Class _ bs => existsb (fun b => issubclass b d) bs
  end.

(** Values.  [PyInstance c oid] is the object with identity [oid] whose type
    is [c]; when [c] derives from [type] the object is itself a class (made
    by the metaclass [c], deriving from [object] only).  A [PyClosure] is a
    function object made by one of the [listen] methods of this module: the
    [wrap] function together with the variables it closes over. *)
Inductive pyval : Type :=
| PyNone
| PyBool (b : bool)
| PyInt (z : Z)
| PyStr (s : string)
| PyFunction (name : string)
| PyClass (c : classref)
| PyInstance (c : classref) (oid : nat)
| PyClosure (w : closure)
with closure : Type :=
| InstanceWrap (orig_fn : pyval)
| MapperWrap (raw retval : bool) (target_index : option Z) (wrapped_fn : pyval)
| AttributeWrap (raw retval : bool) (orig_fn : pyval).

(** Equality of two target indices ([None] or a position). *)
Definition target_index_eqb (i j : option Z) : bool :=
  match i with
  | Some a => match j with Some b => Z.eqb a b | None => false end
  | None => match j with Some _ => false | None => true end
  end.

(** [v is w]: object identity. *)
Fixpoint py_is (v w : pyval) : bool :=
  match v, w with
  | PyNone, PyNone => true
  | PyBool a, PyBool b => Bool.eqb a b
  | PyInt a, PyInt b => Z.eqb a b
  | PyStr a, PyStr b => String.eqb a b
  | PyFunction a, PyFunction b => String.eqb a b
  | PyClass a, PyClass b => classref_eqb a b
  | PyInstance a i, PyInstance b j => classref_eqb a b && Nat.eqb i j
  | PyClosure a, PyClosure b => closure_is a b
  | _, _ => false
  end
with closure_is (a b : closure) : bool :=
  match a, b with
  | InstanceWrap f, InstanceWrap g => py_is f g
  | MapperWrap r1 v1 t1 f, MapperWrap r2 v2 t2 g =>
      Bool.eqb r1 r2 && Bool.eqb v1 v2 && target_index_eqb t1 t2 && py_is f g
  | AttributeWrap r1 v1 f, AttributeWrap r2 v2 g =>
      Bool.eqb r1 r2 && Bool.eqb v1 v2 && py_is f g
  | _, _ => false
  end.

(** [type(v)]. *)
Definition py_type (v : pyval) : classref :=
  match v with
  | PyNone => NoneType_
  | PyBool _ => bool_
  | PyInt _ => int_
  | PyStr _ => str_
  | PyFunction _ | PyClosure _ => function_
  | PyClass _ => type_
  | PyInstance c _ => c
  end.

(** [isinstance(v, c)]. *)
Definition isinstance (v : pyval) (c : classref) : bool :=
  issubclass (py_type v) c.

(** ** Exceptions and results *)

Inductive exn : Type :=
| NotImplementedError (msg : string)
| ArgumentError (msg : string)
| AttributeError
| ValueError
| IndexError
| TypeError
| HostError (tag : string).

Inductive result (A : Type) : Type :=
| Ok (a : A)
| Raise (e : exn).
Arguments Ok {A} a.
Arguments Raise {A} e.

(** [issubclass(v, c)] on a value: a [TypeError] when [v] is not a class. *)
Definition py_issubclass (v : pyval) (c : classref) : result bool :=
  match v with
  | PyClass k => Ok (issubclass k c)
  | PyInstance m _ =>
      if issubclass m type_ then Ok (classref_eqb c object_) else Raise TypeError
  | _ => Raise TypeError
  end.

(** [l[i]] and [l[i] = x] on a Python list, with negative indices counting
    from the end and [IndexError] out of range. *)
Definition py_norm_index {A} (l : list A) (i : Z) : option nat :=
  let n := Z.of_nat (length l) in
  let j := if (i <? 0)%Z then (i + n)%Z else i in
  if ((0 <=? j) && (j <? n))%Z then Some (Z.to_nat j) else None.

Definition list_getitem {A} (l : list A) (i : Z) : result A :=
  match py_norm_index l i with
  | Some k => match nth_error l k with Some x => Ok x | None => Raise IndexError end
  | None => Raise IndexError
  end.

Fixpoint list_update {A} (l : list A) (k : nat) (x : A) : list A :=
  match l, k with
  | [], _ => []
  | _ :: t, O => x :: t
  | h :: t, S k' => h :: list_update t k' x
  end.

Definition list_setitem {A} (l : list A) (i : Z) (x : A) : result (list A) :=
  match py_norm_index l i with
  | Some k => Ok (list_update l k x)
  | None => Raise IndexError
  end.

(** [l.index(x)]: position of the first occurrence, [ValueError] if none. *)
Fixpoint list_index (l : list string) (x : string) : result Z :=
  match l with
  | [] => Raise ValueError
  | h :: t =>
      if String.eqb h x then Ok 0%Z
      else match list_index t x with
           | Ok i => Ok (i + 1)%Z
           | Raise e => Raise e
           end
  end.

(** ** The host framework *)

(** One call [event.Events.listen(target, identifier, fn, *pos, **kw)]. *)
Record listen_call : Type := ListenCall {
  lc_target : pyval;
  lc_identifier : string;
  lc_fn : pyval;
  lc_pos : list pyval;
  lc_kw : list (string * pyval)
}.

(** What this module imports and uses of the framework, over a host state
    [W]; none of it is defined in this file of the repository. *)
Record Host (W : Type) : Type := {
  (* sqlalchemy.orm.instrumentation *)
  instrumentation_registry : pyval;
  manager_of_class : pyval;
  ClassManager : classref;
  (* sqlalchemy.orm *)
  mapper : pyval;
  class_mapper : pyval;
  Mapper : classref;
  Session : classref;
  ScopedSession : classref;
  (* sqlalchemy.orm.interfaces *)
  EXT_CONTINUE : pyval;
  (* the object protocol of host and user objects *)
  host_getattr : pyval -> string -> W -> result pyval * W;
  host_setattr : pyval -> string -> pyval -> W -> result unit * W;
  host_call : pyval -> list pyval -> list (string * pyval) -> W -> result pyval * W;
  host_call_method : pyval -> string -> list pyval -> W -> result pyval * W;
  host_getitem : pyval -> pyval -> W -> result pyval * W;
  host_iter : pyval -> W -> result (list pyval) * W;
  host_bool : pyval -> W -> result bool * W;
  (* attributes that the event classes inherit from event.Events, and
     inspect.getargspec(v)[0] on such an attribute *)
  Events_getattr : string -> result pyval;
  host_getargspec : pyval -> result (list string);
  (* the outcome of event.Events.listen *)
  Events_listen_result : listen_call -> W -> result unit * W
}.

Arguments instrumentation_registry {W}.
Arguments manager_of_class {W}.
Arguments ClassManager {W}.
Arguments mapper {W}.
Arguments class_mapper {W}.
Arguments Mapper {W}.
Arguments Session {W}.
Arguments ScopedSession {W}.
Arguments EXT_CONTINUE {W}.
Arguments host_getattr {W}.
Arguments host_setattr {W}.
Arguments host_call {W}.
Arguments host_call_method {W}.
Arguments host_getitem {W}.
Arguments host_iter {W}.
Arguments host_bool {W}.
Arguments Events_getattr {W}.
Arguments host_getargspec {W}.
Arguments Events_listen_result {W}.

(** The state a call runs in: the calls made to [event.Events.listen] so far
    (oldest first) and the state of the host. *)
Record world (W : Type) : Type := World {
  events_log : list listen_call;
  host_state : W
}.
Arguments World {W}.
Arguments events_log {W}.
Arguments host_state {W}.

(** ** State and exception monad *)

Definition M (W A : Type) : Type := world W -> result A * world W.

Definition ret {W A} (a : A) : M W A := fun w => (Ok a, w).

Definition raise {W A} (e : exn) : M W A := fun w => (Raise e, w).

Definition bind {W A B} (m : M W A) (k : A -> M W B) : M W B :=
  fun w =>
    match m w with
    | (Ok a, w') => k a w'
    | (Raise e, w') => (Raise e, w')
    end.

Declare Scope py_scope.
Delimit Scope py_scope with py.
Notation "x <- m ;; k" := (bind m (fun x => k))
  (at level 61, m at next level, right associativity) : py_scope.
Notation "m ;;; k" := (bind m (fun _ => k))
  (at level 61, right associativity) : py_scope.
Open Scope py_scope.

(** A pure result that may be an exception. *)
Definition of_result {W A} (r : result A) : M W A := fun w => (r, w).

(** A host operation, acting on the host state only: it reads and changes
    what the host keeps, and makes no call to [event.Events.listen] through
    this module.  A host function or user callback that itself registers
    listeners is outside this model. *)
Definition lift {W A} (op : W -> result A * W) : M W A :=
  fun w =>
    let (r, h) := op (host_state w) in
    (r, World (events_log w) h).

(** [try: body except ValueError: handler]. *)
Definition try_except_ValueError {W A} (body handler : M W A) : M W A :=
  fun w =>
    match body w with
    | (Raise ValueError, w') => handler w'
    | other => other
    end.

(** [for x in l: body(x)]. *)
Fixpoint for_each {W A} (l : list A) (body : A -> M W unit) : M W unit :=
  match l with
  | [] => ret tt
  | x :: t => body x ;;; for_each t body
  end.

(** ** Calling conventions *)

Definition kwargs : Type := list (string * pyval).

Definition has_key (k : string) (kw : kwargs) : bool :=
  existsb (fun p => String.eqb (fst p) k) kw.

Fixpoint lookup_key (k : string) (kw : kwargs) : option pyval :=
  match kw with
  | [] => None
  | (k', v) :: t => if String.eqb k' k then Some v else lookup_key k t
  end.

(** Keyword arguments of a call against the parameters [names] that the
    positional arguments left unfilled: a keyword naming an unfilled
    parameter fills it, a keyword naming a parameter that already has a value
    is a [TypeError], any other keyword goes to [**kw] when the function has
    one ([star_kw]) and is a [TypeError] otherwise. *)
Fixpoint assign_keywords (names : list string) (star_kw : bool)
    (filled : kwargs) (extra : kwargs) (kw : kwargs) : result (kwargs * kwargs) :=
  match kw with
  | [] => Ok (filled, rev extra)
  | (k, v) :: t =>
      if has_key k filled then Raise TypeError
      else if existsb (String.eqb k) names
           then assign_keywords names star_kw ((k, v) :: filled) extra t
           else if star_kw then assign_keywords names star_kw filled ((k, v) :: extra) t
                else Raise TypeError
  end.

Fixpoint collect_params (names : list string) (filled : kwargs) : result (list pyval) :=
  match names with
  | [] => Ok []
  | n :: t =>
      match lookup_key n filled, collect_params t filled with
      | Some v, Ok vs => Ok (v :: vs)
      | _, _ => Raise TypeError
      end
  end.

(** Binding of a call [f( *arg, **kw)] to [def f(names..., *rest)] or
    [def f(names..., *rest, **kw)]: the values of the named parameters, the
    surplus positional arguments and the surplus keyword arguments. *)
Definition bind_call (names : list string) (star_kw : bool)
    (arg : list pyval) (kw : kwargs) : result (list pyval * list pyval * kwargs) :=
  let n := length names in
  let positional := combine names (firstn n arg) in
  match assign_keywords names star_kw positional [] kw with
  | Raise e => Raise e
  | Ok (filled, extra) =>
      match collect_params names filled with
      | Raise e => Raise e
      | Ok vs => Ok (vs, skipn n arg, extra)
      end
  end.

(** ** What the classes declare *)

Inductive event_class : Type :=
| InstrumentationEventsC
| InstanceEventsC
| MapperEventsC
| SessionEventsC
| AttributeEventsC.

Definition all_event_classes : list event_class :=
  [InstrumentationEventsC; InstanceEventsC; MapperEventsC; SessionEventsC;
   AttributeEventsC].

(** The [def]s in the body of each class, in source order, each with the
    names of its parameters as [inspect.getargspec(...)[0]] lists them (the
    [**flags] of two mapper hooks is not among them). *)
Definition declared_members (c : event_class) : list (string * list string) :=
  match c with
  | InstrumentationEventsC =>
      [ ("accept_with", ["cls"; "target"]);
        ("listen", ["cls"; "target"; "identifier"; "fn"; "propagate"]);
        ("remove", ["cls"; "identifier"; "target"; "fn"]);
        ("on_class_instrument", ["self"; "cls"]);
        ("on_class_uninstrument", ["self"; "cls"]);
        ("on_attribute_instrument", ["self"; "cls"; "key"; "inst"]) ]
  | InstanceEventsC =>
      [ ("accept_with", ["cls"; "target"]);
        ("listen", ["cls"; "target"; "identifier"; "fn"; "raw"; "propagate"]);
        ("remove", ["cls"; "identifier"; "target"; "fn"]);
        ("on_first_init", ["self"; "manager"; "cls"]);
        ("on_init", ["self"; "target"; "args"; "kwargs"]);
        ("on_init_failure", ["self"; "target"; "args"; "kwargs"]);
        ("on_load", ["self"; "target"]);
        ("on_resurrect", ["self"; "target"]) ]
  | MapperEventsC =>
      [ ("accept_with", ["cls"; "target"]);
        ("listen", ["cls"; "target"; "identifier"; "fn"; "raw"; "retval"; "propagate"]);
        ("on_instrument_class", ["self"; "mapper"; "class_"]);
        ("on_translate_row", ["self"; "mapper"; "context"; "row"]);
        ("on_create_instance", ["self"; "mapper"; "context"; "row"; "class_"]);
        ("on_append_result", ["self"; "mapper"; "context"; "row"; "target"; "result"]);
        ("on_populate_instance", ["self"; "mapper"; "context"; "row"; "target"]);
        ("on_before_insert", ["self"; "mapper"; "connection"; "target"]);
        ("on_after_insert", ["self"; "mapper"; "connection"; "target"]);
        ("on_before_update", ["self"; "mapper"; "connection"; "target"]);
        ("on_after_update", ["self"; "mapper"; "connection"; "target"]);
        ("on_before_delete", ["self"; "mapper"; "connection"; "target"]);
        ("on_after_delete", ["self"; "mapper"; "connection"; "target"]);
        ("remove", ["cls"; "identifier"; "target"; "fn"]) ]
  | SessionEventsC =>
      [ ("accept_with", ["cls"; "target"]);
        ("remove", ["cls"; "identifier"; "target"; "fn"]);
        ("on_before_commit", ["self"; "session"]);
        ("on_after_commit", ["self"; "session"]);
        ("on_after_rollback", ["self"; "session"]);
        ("on_before_flush", ["self"; "session"; "flush_context"; "instances"]);
        ("on_after_flush", ["self"; "session"; "flush_context"]);
        ("on_after_flush_postexec", ["self"; "session"; "flush_context"]);
        ("on_after_begin", ["self"; "session"; "transaction"; "connection"]);
        ("on_after_attach", ["self"; "session"; "instance"]);
        ("on_after_bulk_update", ["self"; "session"; "query"; "query_context"; "result"]);
        ("on_after_bulk_delete", ["self"; "session"; "query"; "query_context"; "result"]) ]
  | AttributeEventsC =>
      [ ("listen", ["cls"; "target"; "identifier"; "fn"; "active_history"; "raw";
                    "retval"; "propagate"]);
        ("remove", ["cls"; "identifier"; "target"; "fn"]);
        ("on_append", ["self"; "target"; "value"; "initiator"]);
        ("on_remove", ["self"; "target"; "value"; "initiator"]);
        ("on_set", ["self"; "target"; "value"; "oldvalue"; "initiator"]) ]
  end.

Fixpoint assoc {A} (k : string) (l : list (string * A)) : option A :=
  match l with
  | [] => None
  | (k', a) :: t => if String.eqb k' k then Some a else assoc k t
  end.

(** The class has a [def] of that name in its own body. *)
Definition defines (c : event_class) (name : string) : bool :=
  match assoc name (declared_members c) with
  | Some _ => true
  | None => false
  end.

(** The event hooks of a class: its members other than the three class
    methods. *)
Definition hooks (c : event_class) : list (string * list string) :=
  filter (fun m => negb (existsb (String.eqb (fst m)) ["accept_with"; "listen"; "remove"]))
         (declared_members c).

(** What [getattr(cls, identifier)] gives on an event class: a method of the
    class itself, or whatever [event.Events] provides under that name. *)
Inductive attribute : Type :=
| OwnMember (args : list string)
| Inherited (v : pyval).

(** ** Operations shared by the five classes *)

Section Runtime.
Context {W : Type} (H : Host W).

(** [event.Events.listen(target, identifier, fn, *pos, **kw)]: the call is
    logged, its outcome is the host's. *)
Definition Events_listen (target : pyval) (identifier : string) (fn : pyval)
    (pos : list pyval) (kw : kwargs) : M W unit :=
  fun w =>
    let c := ListenCall target identifier fn pos kw in
    let (r, h) := Events_listen_result H c (host_state w) in
    (r, World (events_log w ++ [c])%list h).

Definition getattr (v : pyval) (name : string) : M W pyval :=
  lift (host_getattr H v name).

Definition setattr (v : pyval) (name : string) (x : pyval) : M W unit :=
  lift (host_setattr H v name x).

Definition call_method (v : pyval) (name : string) (arg : list pyval) : M W pyval :=
  lift (host_call_method H v name arg).

(** The truth value of [v] in an [if]. *)
Definition truth (v : pyval) : M W bool :=
  match v with
  | PyNone => ret false
  | PyBool b => ret b
  | PyInt z => ret (negb (z =? 0)%Z)
  | PyStr s => ret (negb (String.eqb s ""))
  | PyFunction _ | PyClass _ | PyClosure _ => ret true
  | PyInstance _ _ => lift (host_bool H v)
  end.

(** The statements [arg = list(arg); arg[i] = arg[i].obj()] of the mapper
    wrapper. *)
Definition unwrap_at (i : Z) (arg : list pyval) : M W (list pyval) :=
  x <- of_result (list_getitem arg i) ;;
  o <- call_method x "obj" [] ;;
  of_result (list_setitem arg i o).

(** The first [if] of the mapper wrapper: the arguments it goes on with. *)
Definition unwrap_target (raw : bool) (target_index : option Z)
    (arg : list pyval) : M W (list pyval) :=
  match negb raw, target_index with
  | true, Some i => unwrap_at i arg
  | _, _ => ret arg
  end.

(** [f( *arg, **kw)]: a closure of this module runs its [wrap] body, anything
    else is called by the host. *)
Fixpoint call (f : pyval) (arg : list pyval) (kw : kwargs) {struct f} : M W pyval :=
  match f with
  | PyClosure c => call_closure c arg kw
  | _ => lift (host_call H f arg kw)
  end
with call_closure (c : closure) (arg : list pyval) (kw : kwargs) {struct c} : M W pyval :=
  match c with
  | InstanceWrap orig_fn =>
      (* def wrap(state, *arg, **kw):
             return orig_fn(state.obj(), *arg, **kw) *)
      match bind_call ["state"] true arg kw with
      | Ok ([state], arg, kw) =>
          o <- call_method state "obj" [] ;;
          call orig_fn (o :: arg) kw
      | Ok _ => raise TypeError
      | Raise e => raise e
      end
  | MapperWrap raw retval target_index wrapped_fn =>
      (* def wrap( *arg, **kw):
             if not raw and target_index is not None:
                 arg = list(arg)
                 arg[target_index] = arg[target_index].obj()
             if not retval:
                 wrapped_fn( *arg, **kw)
                 return EXT_CONTINUE
             else:
                 return wrapped_fn( *arg, **kw) *)
      arg <- unwrap_target raw target_index arg ;;
      if negb retval then
        call wrapped_fn arg kw ;;;
        ret (EXT_CONTINUE H)
      else
        call wrapped_fn arg kw
  | AttributeWrap raw retval orig_fn =>
      (* def wrap(target, value, *arg):
             if not raw:
                 target = target.obj()
             if not retval:
                 orig_fn(target, value, *arg)
                 return value
             else:
                 return orig_fn(target, value, *arg) *)
      match bind_call ["target"; "value"] false arg kw with
      | Ok ([target; value], arg, _) =>
          target <- (if negb raw then call_method target "obj" [] else ret target) ;;
          if negb retval then
            call orig_fn (target :: value :: arg) [] ;;;
            ret value
          else
            call orig_fn (target :: value :: arg) []
      | Ok _ => raise TypeError
      | Raise e => raise e
      end
  end.

(** [getattr(cls, identifier)] on the event class [c]. *)
Definition class_getattr (c : event_class) (identifier : string) : M W attribute :=
  match assoc identifier (declared_members c) with
  | Some args => ret (OwnMember args)
  | None => v <- of_result (Events_getattr H identifier) ;; ret (Inherited v)
  end.

(** [inspect.getargspec(meth)[0]]. *)
Definition getargspec_args (meth : attribute) : M W (list string) :=
  match meth with
  | OwnMember args => ret args
  | Inherited v => of_result (host_getargspec H v)
  end.

End Runtime.

(** ** InstrumentationEvents *)

Module InstrumentationEvents.
Section WithHost.
Context {W : Type} (H : Host W).

Definition accept_with (target : pyval) : M W pyval :=
  if isinstance target type_ then ret (instrumentation_registry H)
  else ret PyNone.

Definition listen (target : pyval) (identifier : string) (fn : pyval)
    (propagate : bool) : M W unit :=
  Events_listen H target identifier fn [] [("propagate", PyBool propagate)].

Definition remove (identifier target fn : pyval) : M W unit :=
  raise (NotImplementedError "Removal of instrumentation events not yet implemented").

End WithHost.
End InstrumentationEvents.

(** ** InstanceEvents *)

Module InstanceEvents.
Section WithHost.
Context {W : Type} (H : Host W).

Definition accept_with (target : pyval) : M W pyval :=
  if isinstance target (ClassManager H) then ret target
  else if isinstance target (Mapper H) then getattr H target "class_manager"
  else if py_is target (mapper H) then ret (PyClass (ClassManager H))
  else if isinstance target type_ then
    is_mapper_class <- of_result (py_issubclass target (Mapper H)) ;;
    if is_mapper_class then ret (PyClass (ClassManager H))
    else
      manager <- call H (manager_of_class H) [target] [] ;;
      nonempty <- truth H manager ;;
      if nonempty then ret manager else ret PyNone
  else ret PyNone.

Definition listen (target : pyval) (identifier : string) (fn : pyval)
    (raw propagate : bool) : M W unit :=
  let fn := if negb raw then PyClosure (InstanceWrap fn) else fn in
  Events_listen H target identifier fn [] [("propagate", PyBool propagate)] ;;;
  if propagate then
    managers <- call_method H target "subclass_managers" [PyBool true] ;;
    managers <- lift (host_iter H managers) ;;
    for_each managers (fun mgr => Events_listen H mgr identifier fn [PyBool true] [])
  else ret tt.

Definition remove (identifier target fn : pyval) : M W unit :=
  raise (NotImplementedError "Removal of instance events not yet implemented").

End WithHost.
End InstanceEvents.

(** ** MapperEvents *)

Module MapperEvents.
Section WithHost.
Context {W : Type} (H : Host W).

Definition accept_with (target : pyval) : M W pyval :=
  if py_is target (mapper H) then ret (PyClass (Mapper H))
  else if isinstance target type_ then
    is_mapper_class <- of_result (py_issubclass target (Mapper H)) ;;
    if is_mapper_class then ret target
    else call H (class_mapper H) [target] []
  else ret target.

(** The [target_index] that [listen] computes when [raw] is false:
    [inspect.getargspec(meth)[0].index('target') - 1], or [None] when that
    raises [ValueError]. *)
Definition target_index_of (identifier : string) : M W (option Z) :=
  meth <- class_getattr H MapperEventsC identifier ;;
  try_except_ValueError
    (args <- getargspec_args H meth ;;
     i <- of_result (list_index args "target") ;;
     ret (Some (i - 1)%Z))
    (ret None).

(** The last statement of [listen], which registers the final [fn]. *)
Definition register (target : pyval) (identifier : string) (fn : pyval)
    (propagate : bool) : M W unit :=
  if propagate then
    mappers <- getattr H target "self_and_descendants" ;;
    mappers <- lift (host_iter H mappers) ;;
    for_each mappers
      (fun m => Events_listen H m identifier fn [] [("propagate", PyBool true)])
  else
    Events_listen H target identifier fn [] [].

(** With [raw] true [target_index] is never assigned, and never read by the
    wrapper either: the closure holds [None] for it. *)
Definition listen (target : pyval) (identifier : string) (fn : pyval)
    (raw retval propagate : bool) : M W unit :=
  fn <- (if negb raw || negb retval then
           target_index <- (if negb raw then target_index_of identifier
                            else ret None) ;;
           ret (PyClosure (MapperWrap raw retval target_index fn))
         else ret fn) ;;
  register target identifier fn propagate.

Definition remove (identifier target fn : pyval) : M W unit :=
  raise (NotImplementedError "Removal of mapper events not yet implemented").

End WithHost.
End MapperEvents.

(** ** SessionEvents *)

Module SessionEvents.
Section WithHost.
Context {W : Type} (H : Host W).

Definition creation_callable_message : string :=
  "Session event listen on a ScopedSession requries that its creation callable is a Session subclass.".

Definition accept_with (target : pyval) : M W pyval :=
  if isinstance target (ScopedSession H) then
    factory <- getattr H target "session_factory" ;;
    not_session_class <-
      (if negb (isinstance factory type_) then ret true
       else
         factory <- getattr H target "session_factory" ;;
         is_session_class <- of_result (py_issubclass factory (Session H)) ;;
         ret (negb is_session_class)) ;;
    if (not_session_class : bool) then
      raise (ArgumentError creation_callable_message)
    else getattr H target "session_factory"
  else if isinstance target type_ then
    is_scoped <- of_result (py_issubclass target (ScopedSession H)) ;;
    if is_scoped then ret (PyClass (Session H))
    else
      is_session <- of_result (py_issubclass target (Session H)) ;;
      if is_session then ret target
      else ret PyNone
  else if isinstance target (Session H) then ret target
  else ret PyNone.

Definition remove (identifier target fn : pyval) : M W unit :=
  raise (NotImplementedError "Removal of session events not yet implemented").

End WithHost.
End SessionEvents.

(** ** AttributeEvents *)

Module AttributeEvents.
Section WithHost.
Context {W : Type} (H : Host W).

Definition listen (target : pyval) (identifier : string) (fn : pyval)
    (active_history raw retval propagate : bool) : M W unit :=
  (if active_history then
     dispatch <- getattr H target "dispatch" ;;
     setattr H dispatch "active_history" (PyBool true)
   else ret tt) ;;;
  let fn := if negb raw || negb retval
            then PyClosure (AttributeWrap raw retval fn) else fn in
  Events_listen H target identifier fn [PyBool propagate] [] ;;;
  if propagate then
    class_ <- getattr H target "class_" ;;
    manager <- call H (manager_of_class H) [class_] [] ;;
    managers <- call_method H manager "subclass_managers" [PyBool true] ;;
    managers <- lift (host_iter H managers) ;;
    for_each managers
      (fun mgr =>
         key <- getattr H target "key" ;;
         attr <- lift (host_getitem H mgr key) ;;
         Events_listen H attr identifier fn [PyBool true] [])
  else ret tt.

Definition remove (identifier target fn : pyval) : M W unit :=
  raise (NotImplementedError "Removal of attribute events not yet implemented").

End WithHost.
End AttributeEvents.

(** The [remove] class method of each class. *)
Definition remove_of {W : Type} (c : event_class) : pyval -> pyval -> pyval -> M W unit :=
  match c with
  | InstrumentationEventsC => InstrumentationEvents.remove
  | InstanceEventsC => InstanceEvents.remove
  | MapperEventsC => MapperEvents.remove
  | SessionEventsC => SessionEvents.remove
  | AttributeEventsC => AttributeEvents.remove
  end.

(** The calls to [event.Events.listen] made by running [m] from [w]. *)
Definition calls_made {W A} (m : M W A) (w : world W) : list listen_call :=
  skipn (length (events_log w)) (events_log (snd (m w))).

(** ** A small host, to run the module on *)

Module DemoHost.

(** The host state: the calls received by user functions, oldest first. *)
Definition state : Type := list (string * list pyval).

Definition dict_ : classref := Class "dict" [object_].
Definition ClassManager_ : classref := Class "ClassManager" [dict_].
Definition Mapper_ : classref := Class "Mapper" [object_].
Definition Session_ : classref := Class "Session" [object_].
Definition ScopedSession_ : classref := Class "ScopedSession" [object_].
Definition InstanceState_ : classref := Class "InstanceState" [object_].
Definition InstrumentedAttribute_ : classref := Class "InstrumentedAttribute" [object_].
Definition Dispatch_ : classref := Class "Dispatch" [object_].
Definition generator_ : classref := Class "generator" [object_].
Definition deque_ : classref := Class "deque" [object_].
Definition symbol_ : classref := Class "symbol" [object_].
Definition User : classref := Class "User" [object_].
Definition Admin : classref := Class "Admin" [User].
Definition MySession : classref := Class "MySession" [Session_].

(** Attributes: a scoped session made from a plain function (identity 0) or
    from the class [MySession] (any other identity); mapper [n] with its
    class manager [n]; an instrumented attribute of [User] named "name". *)
Definition demo_getattr (v : pyval) (name : string) (h : state) : result pyval * state :=
  match v with
  | PyInstance c n =>
      if classref_eqb c ScopedSession_ && String.eqb name "session_factory" then
        (Ok (match n with O => PyFunction "make_session" | _ => PyClass MySession end), h)
      else if classref_eqb c Mapper_ && String.eqb name "class_manager" then
        (Ok (PyInstance ClassManager_ n), h)
      else if classref_eqb c Mapper_ && String.eqb name "self_and_descendants" then
        (Ok (PyInstance deque_ n), h)
      else if classref_eqb c InstrumentedAttribute_ && String.eqb name "class_" then
        (Ok (PyClass User), h)
      else if classref_eqb c InstrumentedAttribute_ && String.eqb name "key" then
        (Ok (PyStr "name"), h)
      else if classref_eqb c InstrumentedAttribute_ && String.eqb name "dispatch" then
        (Ok (PyInstance Dispatch_ n), h)
      else (Raise AttributeError, h)
  | _ => (Raise AttributeError, h)
  end.

Definition demo_setattr (v : pyval) (name : string) (x : pyval) (h : state)
    : result unit * state :=
  match v with
  | PyInstance c n =>
      if classref_eqb c Dispatch_ then (Ok tt, (h ++ [(("setattr " ++ name)%string, [v; x])])%list)
      else (Raise AttributeError, h)
  | _ => (Raise AttributeError, h)
  end.

(** Functions: [manager_of_class] and [class_mapper] know the class [User];
    "failing" raises; any other function records its call and returns 42. *)
Definition demo_call (f : pyval) (arg : list pyval) (kw : kwargs) (h : state)
    : result pyval * state :=
  match f with
  | PyFunction "manager_of_class" =>
      match arg with
      | [PyClass c] =>
          (Ok (if classref_eqb c User then PyInstance ClassManager_ 0 else PyNone), h)
      | _ => (Raise TypeError, h)
      end
  | PyFunction "class_mapper" =>
      match arg with
      | [PyClass c] =>
          if classref_eqb c User then (Ok (PyInstance Mapper_ 0), h)
          else (Raise (HostError "UnmappedClassError"), h)
      | _ => (Raise TypeError, h)
      end
  | PyFunction "failing" => (Raise (HostError "failing"), (h ++ [("failing", arg)])%list)
  | PyFunction name => (Ok (PyInt 42), (h ++ [(name, arg)])%list)
  | _ => (Raise TypeError, h)
  end.

(** Methods: [obj()] of instance state [n] is the [User] object [n];
    [subclass_managers(True)] of a class manager is a generator. *)
Definition demo_call_method (v : pyval) (name : string) (arg : list pyval) (h : state)
    : result pyval * state :=
  match v with
  | PyInstance c n =>
      if classref_eqb c InstanceState_ && String.eqb name "obj" then
        (Ok (PyInstance User n), h)
      else if classref_eqb c ClassManager_ && String.eqb name "subclass_managers" then
        (Ok (PyInstance generator_ n), h)
      else (Raise AttributeError, h)
  | _ => (Raise AttributeError, h)
  end.

Definition demo_getitem (v key : pyval) (h : state) : result pyval * state :=
  match v with
  | PyInstance c n =>
      if classref_eqb c ClassManager_ then (Ok (PyInstance InstrumentedAttribute_ n), h)
      else (Raise TypeError, h)
  | _ => (Raise TypeError, h)
  end.

(** Generator 0 yields the class managers 1 and 2 of the two subclasses,
    deque 0 the mappers 0, 1 and 2; the others yield nothing. *)
Definition demo_iter (v : pyval) (h : state) : result (list pyval) * state :=
  match v with
  | PyInstance c n =>
      if classref_eqb c generator_ then
        (Ok (match n with
             | O => [PyInstance ClassManager_ 1; PyInstance ClassManager_ 2]
             | _ => []
             end), h)
      else if classref_eqb c deque_ then
        (Ok (match n with
             | O => [PyInstance Mapper_ 0; PyInstance Mapper_ 1; PyInstance Mapper_ 2]
             | _ => [v]
             end), h)
      else (Raise TypeError, h)
  | _ => (Raise TypeError, h)
  end.

Definition host : Host state := {|
  instrumentation_registry := PyInstance (Class "InstrumentationRegistry" [object_]) 0;
  manager_of_class := PyFunction "manager_of_class";
  ClassManager := ClassManager_;
  mapper := PyFunction "mapper";
  class_mapper := PyFunction "class_mapper";
  Mapper := Mapper_;
  Session := Session_;
  ScopedSession := ScopedSession_;
  EXT_CONTINUE := PyInstance symbol_ 0;
  host_getattr := demo_getattr;
  host_setattr := demo_setattr;
  host_call := demo_call;
  host_call_method := demo_call_method;
  host_getitem := demo_getitem;
  host_iter := demo_iter;
  host_bool := fun _ h => (Ok true, h);
  Events_getattr := fun _ => Raise AttributeError;
  host_getargspec := fun _ => Raise TypeError;
  Events_listen_result := fun _ h => (Ok tt, h)
|}.

Definition start : world state := World [] [].

(** A second host.  Its event core rejects every registration on mapper 1;
    its event base class has two attributes of its own, a function
    [helper(cls, arg)] and an object [dispatch] that is no function. *)
Definition strict_host : Host state := {|
  instrumentation_registry := PyInstance (Class "InstrumentationRegistry" [object_]) 0;
  manager_of_class := PyFunction "manager_of_class";
  ClassManager := ClassManager_;
  mapper := PyFunction "mapper";
  class_mapper := PyFunction "class_mapper";
  Mapper := Mapper_;
  Session := Session_;
  ScopedSession := ScopedSession_;
  EXT_CONTINUE := PyInstance symbol_ 0;
  host_getattr := demo_getattr;
  host_setattr := demo_setattr;
  host_call := demo_call;
  host_call_method := demo_call_method;
  host_getitem := demo_getitem;
  host_iter := demo_iter;
  host_bool := fun _ h => (Ok true, h);
  Events_getattr := fun name =>
    if String.eqb name "helper" then Ok (PyFunction "helper")
    else if String.eqb name "dispatch" then Ok (PyInstance Dispatch_ 0)
    else Raise AttributeError;
  host_getargspec := fun v =>
    match v with
    | PyFunction _ => Ok ["cls"; "arg"]
    | _ => Raise TypeError
    end;
  Events_listen_result := fun c h =>
    if py_is (lc_target c) (PyInstance Mapper_ 1)
    then (Raise (HostError "rejected"), h)
    else (Ok tt, h)
|}.

(** A user listener, a mapper, an instance state, a class manager and an
    instrumented attribute. *)
Definition listener : pyval := PyFunction "listener".
Definition mapper0 : pyval := PyInstance Mapper_ 0.
Definition state7 : pyval := PyInstance InstanceState_ 7.
Definition manager0 : pyval := PyInstance ClassManager_ 0.
Definition attribute0 : pyval := PyInstance InstrumentedAttribute_ 0.

End DemoHost.

(** ** Properties of computations *)

(** [m] returns normally from every state. *)
Definition returns {W A} (m : M W A) : Prop :=
  forall w, exists a w', m w = (Ok a, w').

(** Every call that [m] makes to [event.Events.listen] satisfies [P], and
    [m] leaves the earlier calls of the log in place. *)
Definition logs_only {W A} (P : listen_call -> Prop) (m : M W A) : Prop :=
  forall w, exists calls,
    events_log (snd (m w)) = (events_log w ++ calls)%list /\ Forall P calls.

Scheme pyval_mut := Induction for pyval Sort Prop
  with closure_mut := Induction for closure Sort Prop.

(** ** Basic facts *)

Section Facts.
Context {W : Type} (H : Host W).

Lemma bind_Ok {A B} (m : M W A) (k : A -> M W B) w a w' :
  m w = (Ok a, w') -> bind m k w = k a w'.
Proof. intros E. unfold bind. rewrite E. reflexivity. Qed.

Lemma bind_Raise {A B} (m : M W A) (k : A -> M W B) w e w' :
  m w = (Raise e, w') -> bind m k w = (Raise e, w').
Proof. intros E. unfold bind. rewrite E. reflexivity. Qed.

(** A normal return of [bind m k] splits into one of [m] and one of [k]. *)
Lemma bind_inv_Ok {A B} (m : M W A) (k : A -> M W B) w b w' :
  bind m k w = (Ok b, w') ->
  exists a w1, m w = (Ok a, w1) /\ k a w1 = (Ok b, w').
Proof.
  unfold bind. destruct (m w) as [[a|e] w1]; intros E.
  - exists a, w1. split; [reflexivity | exact E].
  - discriminate E.
Qed.

Lemma lift_log {A} (op : W -> result A * W) w :
  events_log (snd (lift op w)) = events_log w.
Proof. unfold lift. destruct (op (host_state w)). reflexivity. Qed.

Lemma Events_listen_log target identifier fn pos kw (w : world W) :
  events_log (snd (Events_listen H target identifier fn pos kw w)) =
  (events_log w ++ [ListenCall target identifier fn pos kw])%list.
Proof.
  unfold Events_listen.
  destruct (Events_listen_result H _ (host_state w)). reflexivity.
Qed.

Lemma calls_made_of_log {A} (m : M W A) w calls :
  events_log (snd (m w)) = (events_log w ++ calls)%list ->
  calls_made m w = calls.
Proof.
  intros E. unfold calls_made. rewrite E.
  rewrite skipn_app, skipn_all, Nat.sub_diag. reflexivity.
Qed.

Lemma logs_only_calls_made {A} P (m : M W A) w c :
  logs_only P m -> In c (calls_made m w) -> P c.
Proof.
  intros L I. destruct (L w) as (calls & E & F).
  rewrite (calls_made_of_log _ _ _ E) in I.
  rewrite Forall_forall in F. auto.
Qed.

Lemma logs_only_ret {A} P (a : A) : logs_only P (ret (W:=W) a).
Proof. intros w. exists []. rewrite app_nil_r. split; [reflexivity | constructor]. Qed.

Lemma logs_only_raise {A} P e : logs_only P (raise (W:=W) (A:=A) e).
Proof. intros w. exists []. rewrite app_nil_r. split; [reflexivity | constructor]. Qed.

Lemma logs_only_of_result {A} P (r : result A) : logs_only P (of_result (W:=W) r).
Proof. intros w. exists []. rewrite app_nil_r. split; [reflexivity | constructor]. Qed.

Lemma logs_only_lift {A} P (op : W -> result A * W) : logs_only P (lift op).
Proof.
  intros w. exists []. rewrite app_nil_r, lift_log. split; [reflexivity | constructor].
Qed.

Lemma logs_only_bind {A B} P (m : M W A) (k : A -> M W B) :
  logs_only P m -> (forall a, logs_only P (k a)) -> logs_only P (bind m k).
Proof.
  intros Lm Lk w. destruct (Lm w) as (c1 & E1 & F1).
  unfold bind. destruct (m w) as [[a|e] w1]; simpl in E1.
  - destruct (Lk a w1) as (c2 & E2 & F2).
    exists (c1 ++ c2)%list. rewrite E2, E1, app_assoc. split; [reflexivity|].
    apply Forall_app; auto.
  - exists c1. simpl. auto.
Qed.

Lemma logs_only_Events_listen (P : listen_call -> Prop) target identifier fn pos kw :
  P (ListenCall target identifier fn pos kw) ->
  logs_only P (Events_listen H target identifier fn pos kw).
Proof.
  intros Pc w. exists [ListenCall target identifier fn pos kw].
  rewrite Events_listen_log. split; [reflexivity | repeat constructor; exact Pc].
Qed.

Lemma logs_only_for_each {A} P (l : list A) (body : A -> M W unit) :
  (forall x, logs_only P (body x)) -> logs_only P (for_each l body).
Proof.
  intros Lb. induction l as [|x l IH]; simpl.
  - apply logs_only_ret.
  - apply logs_only_bind; auto.
Qed.

Lemma logs_only_try {A} P (body handler : M W A) :
  logs_only P body -> logs_only P handler ->
  logs_only P (try_except_ValueError body handler).
Proof.
  intros Lb Lh w. destruct (Lb w) as (c1 & E1 & F1).
  unfold try_except_ValueError.
  destruct (body w) as [[a|e] w1]; simpl in E1; [exists c1; auto|].
  destruct e; try solve [exists c1; auto].
  destruct (Lh w1) as (c2 & E2 & F2).
  exists (c1 ++ c2)%list. rewrite E2, E1, app_assoc. split; [reflexivity|].
  apply Forall_app; auto.
Qed.

Lemma logs_only_if {A} P (b : bool) (m1 m2 : M W A) :
  logs_only P m1 -> logs_only P m2 -> logs_only P (if b then m1 else m2).
Proof. destruct b; auto. Qed.

End Facts.

(** ** Listener removal *)

(** C1. For each of the five event classes and for all arguments
    (identifier, target, fn), the class's [remove] raises
    [NotImplementedError], whatever the state it is called in, and leaves
    that state (the registrations made so far and the host's state) as it
    was. *)
Theorem remove_raises_NotImplementedError :
  forall (W : Type) (c : event_class) (identifier target fn : pyval) (w : world W),
    In c all_event_classes /\
    exists msg,
      remove_of c identifier target fn w = (Raise (NotImplementedError msg), w).
Proof.
  intros W c identifier target fn w. split.
  - destruct c; simpl; tauto.
  - destruct c; simpl; eexists; reflexivity.
Qed.

(** ** Target resolution *)

Lemma py_issubclass_of_class (v : pyval) (c : classref) :
  isinstance v type_ = true -> exists b, py_issubclass v c = Ok b.
Proof.
  destruct v; simpl; try discriminate; intros I.
  - eexists; reflexivity.
  - unfold isinstance in I. simpl in I. rewrite I. eexists; reflexivity.
Qed.

(** C6. [InstrumentationEvents.accept_with] returns the instrumentation
    registry for every target that is an instance of [type], and [None] for
    every other target; it has no other outcome and changes nothing.  Every
    class is an instance of [type], and so is [type] itself. *)
Theorem InstrumentationEvents_accept_with_registry_or_None :
  forall (W : Type) (H : Host W) (target : pyval) (w : world W),
    (isinstance target type_ = true ->
     InstrumentationEvents.accept_with H target w = (Ok (instrumentation_registry H), w)) /\
    (isinstance target type_ = false ->
     InstrumentationEvents.accept_with H target w = (Ok PyNone, w)) /\
    (InstrumentationEvents.accept_with H target w = (Ok (instrumentation_registry H), w) \/
     InstrumentationEvents.accept_with H target w = (Ok PyNone, w)) /\
    (forall c, InstrumentationEvents.accept_with H (PyClass c) w
               = (Ok (instrumentation_registry H), w)) /\
    InstrumentationEvents.accept_with H (PyClass type_) w
    = (Ok (instrumentation_registry H), w).
Proof.
  intros W H target w. unfold InstrumentationEvents.accept_with.
  split; [intros ->; reflexivity|].
  split; [intros ->; reflexivity|].
  split; [destruct (isinstance target type_); [left | right]; reflexivity|].
  split; [intros c|]; reflexivity.
Qed.

Lemma InstrumentationEvents_accept_with_registry_or_None_witness :
  InstrumentationEvents.accept_with DemoHost.host (PyClass DemoHost.User) DemoHost.start
  = (Ok (instrumentation_registry DemoHost.host), DemoHost.start) /\
  InstrumentationEvents.accept_with DemoHost.host (PyInstance DemoHost.User 3) DemoHost.start
  = (Ok PyNone, DemoHost.start).
Proof.
  split.
  - apply (proj1 (InstrumentationEvents_accept_with_registry_or_None
                    _ DemoHost.host (PyClass DemoHost.User) DemoHost.start)).
    reflexivity.
  - apply (proj1 (proj2 (InstrumentationEvents_accept_with_registry_or_None
                    _ DemoHost.host (PyInstance DemoHost.User 3) DemoHost.start))).
    reflexivity.
Defined.

(** ** The methods each class defines *)

(** C8, as stated, fails: [SessionEvents] has no [listen] of its own. *)
Lemma not_every_class_defines_accept_with_and_listen :
  ~ (forall c : event_class,
       defines c "accept_with" = true /\ defines c "listen" = true).
Proof.
  intros A. destruct (A SessionEventsC) as [_ L]. discriminate L.
Qed.

(** C8, amended.  Each of the five classes defines [remove];
    [InstrumentationEvents], [InstanceEvents] and [MapperEvents] define both
    [accept_with] and [listen]; [SessionEvents] defines [accept_with] and no
    [listen], [AttributeEvents] defines [listen] and no [accept_with]. *)
Theorem methods_defined_by_each_class :
  forall c : event_class,
    defines c "remove" = true /\
    defines c "accept_with" =
      match c with AttributeEventsC => false | _ => true end /\
    defines c "listen" =
      match c with SessionEventsC => false | _ => true end.
Proof. intros c. destruct c; repeat split; reflexivity. Qed.

Section Returns.
Context {W : Type}.


Lemma returns_bind {A B} (m : M W A) (k : A -> M W B) :
  returns m -> (forall a, returns (k a)) -> returns (bind m k).
Proof.
  intros Rm Rk w. destruct (Rm w) as (a & w1 & E).
  destruct (Rk a w1) as (b & w2 & E2).
  exists b, w2. rewrite (bind_Ok _ _ _ _ _ E). exact E2.
Qed.

Lemma returns_issubclass (v : pyval) (c : classref) :
  isinstance v type_ = true -> returns (of_result (W:=W) (py_issubclass v c)).
Proof.
  intros I w. destruct (py_issubclass_of_class v c I) as [b E].
  exists b, w. unfold of_result. rewrite E. reflexivity.
Qed.

End Returns.


(** ** What [listen] hands to the event core *)

Section ListenFacts.
Context {W : Type} (H : Host W).

(** Calling a function registers nothing: the wrappers of this module make
    no call to [event.Events.listen], and the host acts on its own state. *)
Lemma call_keeps_log (f : pyval) :
  forall arg kw (st0 : world W), events_log (snd (call H f arg kw st0)) = events_log st0.
Proof.
  induction f using pyval_mut with
    (P0 := fun c => forall arg kw (st0 : world W),
             events_log (snd (call_closure H c arg kw st0)) = events_log st0);
    intros arg kw st0; simpl; try apply lift_log.
  - apply IHf.
  - destruct (bind_call ["state"] true arg kw) as [[[vs rest] extra]|e];
      [|reflexivity].
    destruct vs as [|st [|? ?]]; try reflexivity.
    unfold bind, call_method.
    pose proof (lift_log (host_call_method H st "obj" []) st0) as L.
    destruct (lift (host_call_method H st "obj" []) st0) as [[o|e] st1];
      simpl in L; [|exact L].
    rewrite IHf. exact L.
  - unfold bind.
    assert (L : events_log (snd (unwrap_target H raw target_index arg st0))
                = events_log st0).
    { unfold unwrap_target. destruct (negb raw); [|reflexivity].
      destruct target_index as [i|]; [|reflexivity].
      unfold unwrap_at, bind, of_result, call_method.
      destruct (list_getitem arg i) as [x|e]; [|reflexivity].
      pose proof (lift_log (host_call_method H x "obj" []) st0) as L.
      destruct (lift (host_call_method H x "obj" []) st0) as [[o|e] st1];
        simpl in L; simpl; [|exact L].
      destruct (list_setitem arg i o); exact L. }
    destruct (unwrap_target H raw target_index arg st0) as [[arg'|e] st1];
      simpl in L; [|exact L].
    destruct (negb retval).
    + unfold bind. pose proof (IHf arg' kw st1) as L1.
      destruct (call H f arg' kw st1) as [[v|e] st2]; simpl in L1 |- *; congruence.
    + rewrite IHf. exact L.
  - destruct (bind_call ["target"; "value"] false arg kw) as [[[vs rest] extra]|e];
      [|reflexivity].
    destruct vs as [|t [|v [|? ?]]]; try reflexivity.
    unfold bind.
    assert (L : events_log
                  (snd ((if negb raw then call_method H t "obj" [] else ret t) st0))
                = events_log st0).
    { destruct (negb raw); [apply lift_log | reflexivity]. }
    destruct ((if negb raw then call_method H t "obj" [] else ret t) st0)
      as [[t'|e] st1]; simpl in L; [|exact L].
    destruct (negb retval).
    + unfold bind. pose proof (IHf (t' :: v :: rest) [] st1) as L1.
      destruct (call H f (t' :: v :: rest) [] st1) as [[v0|e] st2];
        simpl in L1 |- *; congruence.
    + rewrite IHf. exact L.
Qed.

Lemma logs_only_call P (f : pyval) arg kw : logs_only P (call H f arg kw).
Proof.
  intros w. exists []. rewrite app_nil_r, call_keeps_log.
  split; [reflexivity | constructor].
Qed.

Lemma InstanceEvents_listen_logs_fn target identifier fn raw propagate :
  logs_only
    (fun c => lc_fn c = if negb raw then PyClosure (InstanceWrap fn) else fn)
    (InstanceEvents.listen H target identifier fn raw propagate).
Proof.
  unfold InstanceEvents.listen.
  apply logs_only_bind; [apply logs_only_Events_listen; reflexivity|].
  intros _. apply logs_only_if; [|apply logs_only_ret].
  apply logs_only_bind; [apply logs_only_lift|]. intros it.
  apply logs_only_bind; [apply logs_only_lift|]. intros managers.
  apply logs_only_for_each. intros mgr.
  apply logs_only_Events_listen. reflexivity.
Qed.

Lemma AttributeEvents_listen_logs_fn target identifier fn active_history raw retval
    propagate :
  logs_only
    (fun c => lc_fn c = if negb raw || negb retval
                        then PyClosure (AttributeWrap raw retval fn) else fn)
    (AttributeEvents.listen H target identifier fn active_history raw retval propagate).
Proof.
  unfold AttributeEvents.listen.
  apply logs_only_bind.
  { apply logs_only_if; [|apply logs_only_ret].
    apply logs_only_bind; [apply logs_only_lift|]. intros d. apply logs_only_lift. }
  intros _.
  apply logs_only_bind; [apply logs_only_Events_listen; reflexivity|].
  intros _. apply logs_only_if; [|apply logs_only_ret].
  apply logs_only_bind; [apply logs_only_lift|]. intros class_.
  apply logs_only_bind; [apply logs_only_call|]. intros manager.
  apply logs_only_bind; [apply logs_only_lift|]. intros it.
  apply logs_only_bind; [apply logs_only_lift|]. intros managers.
  apply logs_only_for_each. intros mgr.
  apply logs_only_bind; [apply logs_only_lift|]. intros key.
  apply logs_only_bind; [apply logs_only_lift|]. intros attr.
  apply logs_only_Events_listen. reflexivity.
Qed.

(** [target_index_of] reads no state: its outcome depends on the identifier
    only. *)
Lemma target_index_of_pure identifier :
  exists r, forall w : world W, MapperEvents.target_index_of H identifier w = (r, w).
Proof.
  unfold MapperEvents.target_index_of, class_getattr.
  destruct (assoc identifier (declared_members MapperEventsC)) as [args|];
    cbv [bind ret try_except_ValueError getargspec_args of_result].
  - destruct (list_index args "target") as [i|e].
    + eexists; intros w; reflexivity.
    + destruct e; eexists; intros w; reflexivity.
  - destruct (Events_getattr H identifier) as [v|e].
    + destruct (host_getargspec H v) as [args|e].
      * destruct (list_index args "target") as [i|e].
        -- eexists; intros w; reflexivity.
        -- destruct e; eexists; intros w; reflexivity.
      * destruct e; eexists; intros w; reflexivity.
    + eexists; intros w; reflexivity.
Qed.

Lemma logs_only_register (P : listen_call -> Prop) target identifier fn'
    propagate :
  (forall t pos kw, P (ListenCall t identifier fn' pos kw)) ->
  logs_only P (MapperEvents.register H target identifier fn' propagate).
Proof.
  intros Pc. unfold MapperEvents.register. apply logs_only_if.
  - apply logs_only_bind; [apply logs_only_lift|]. intros it.
    apply logs_only_bind; [apply logs_only_lift|]. intros mappers.
    apply logs_only_for_each. intros m. apply logs_only_Events_listen, Pc.
  - apply logs_only_Events_listen, Pc.
Qed.

(** [MapperEvents.listen], by cases on its flags. *)
Lemma MapperEvents_listen_raw target identifier fn retval propagate (w : world W) :
  MapperEvents.listen H target identifier fn true retval propagate w =
  MapperEvents.register H target identifier
    (if retval then fn else PyClosure (MapperWrap true false None fn)) propagate w.
Proof. destruct retval; reflexivity. Qed.

Lemma MapperEvents_listen_not_raw target identifier fn retval propagate (w : world W) r :
  MapperEvents.target_index_of H identifier w = (r, w) ->
  MapperEvents.listen H target identifier fn false retval propagate w =
  match r with
  | Ok ti =>
      MapperEvents.register H target identifier
        (PyClosure (MapperWrap false retval ti fn)) propagate w
  | Raise e => (Raise e, w)
  end.
Proof.
  intros E. unfold MapperEvents.listen. simpl.
  unfold bind at 1. unfold bind at 1. rewrite E.
  destruct r; reflexivity.
Qed.

Lemma calls_made_nil {A} (m : M W A) w r :
  m w = (r, w) -> calls_made m w = [].
Proof.
  intros E. apply calls_made_of_log. rewrite E, app_nil_r. reflexivity.
Qed.

Lemma calls_made_ext {A} (m1 m2 : M W A) w :
  m1 w = m2 w -> calls_made m1 w = calls_made m2 w.
Proof. intros E. unfold calls_made. rewrite E. reflexivity. Qed.

(** Every callable that [MapperEvents.listen] registers is [fn] itself when
    [raw] and [retval] are both true, and otherwise the wrapper around [fn],
    holding the target index computed for the identifier when [raw] is
    false. *)
Lemma MapperEvents_listen_logs_fn target identifier fn raw retval propagate w c :
  In c (calls_made (MapperEvents.listen H target identifier fn raw retval propagate) w) ->
  if raw then
    lc_fn c = (if retval then fn else PyClosure (MapperWrap true false None fn))
  else
    exists ti,
      lc_fn c = PyClosure (MapperWrap false retval ti fn) /\
      forall w0 : world W, MapperEvents.target_index_of H identifier w0 = (Ok ti, w0).
Proof.
  destruct raw.
  - rewrite (calls_made_ext _ _ _ (MapperEvents_listen_raw _ _ _ _ _ _)).
    apply (logs_only_calls_made
             (fun c => lc_fn c =
                       if retval then fn else PyClosure (MapperWrap true false None fn))).
    apply logs_only_register. reflexivity.
  - destruct (target_index_of_pure identifier) as [r Hr].
    rewrite (calls_made_ext _ (fun w => _) _
               (MapperEvents_listen_not_raw target identifier fn retval propagate w r (Hr w))).
    destruct r as [ti|e].
    + intros I. exists ti. split; [|exact Hr]. revert I.
      apply (logs_only_calls_made
               (fun c => lc_fn c = PyClosure (MapperWrap false retval ti fn))).
      apply logs_only_register. reflexivity.
    + rewrite (calls_made_nil (fun w => (Raise e, w)) w (Raise e) eq_refl).
      intros [].
Qed.

End ListenFacts.

(** ** The wrappers *)

Section Wrappers.
Context {W : Type} (H : Host W).

Lemma call_MapperWrap raw retval ti fn arg kw :
  call H (PyClosure (MapperWrap raw retval ti fn)) arg kw =
  (arg' <- unwrap_target H raw ti arg ;;
   if negb retval then call H fn arg' kw ;;; ret (EXT_CONTINUE H)
   else call H fn arg' kw).
Proof. reflexivity. Qed.

Lemma call_AttributeWrap raw retval fn target value rest :
  call H (PyClosure (AttributeWrap raw retval fn)) (target :: value :: rest) [] =
  (target' <- (if negb raw then call_method H target "obj" [] else ret target) ;;
   if negb retval then call H fn (target' :: value :: rest) [] ;;; ret value
   else call H fn (target' :: value :: rest) []).
Proof. reflexivity. Qed.

Lemma assign_keywords_state (st : pyval) kw : forall extra,
  has_key "state" kw = false ->
  assign_keywords ["state"] true [("state", st)] extra kw
  = Ok ([("state", st)], (rev extra ++ kw)%list).
Proof.
  induction kw as [|[k v] kw IH]; intros extra Hk; cbn [assign_keywords].
  - rewrite app_nil_r. reflexivity.
  - unfold has_key in Hk |- *. cbn [existsb fst] in Hk |- *.
    apply orb_false_elim in Hk as [Hk1 Hk2].
    rewrite (String.eqb_sym "state" k), Hk1. cbn [orb].
    rewrite (IH ((k, v) :: extra) Hk2). cbn [rev].
    rewrite <- app_assoc. reflexivity.
Qed.

Lemma bind_call_state (st : pyval) rest kw :
  has_key "state" kw = false ->
  bind_call ["state"] true (st :: rest) kw = Ok ([st], rest, kw).
Proof.
  intros Hk. unfold bind_call. simpl.
  rewrite (assign_keywords_state st kw [] Hk). reflexivity.
Qed.

Lemma call_InstanceWrap fn st rest kw :
  has_key "state" kw = false ->
  call H (PyClosure (InstanceWrap fn)) (st :: rest) kw =
  (o <- call_method H st "obj" [] ;; call H fn (o :: rest) kw).
Proof.
  intros Hk.
  change (call H (PyClosure (InstanceWrap fn)) (st :: rest) kw)
    with (match bind_call ["state"] true (st :: rest) kw with
          | Ok ([state], arg, kw) =>
              o <- call_method H state "obj" [] ;; call H fn (o :: arg) kw
          | Ok _ => raise TypeError
          | Raise e => raise e
          end).
  rewrite (bind_call_state st rest kw Hk). reflexivity.
Qed.

Lemma list_getitem_middle {A} (pre : list A) x post :
  list_getitem (pre ++ x :: post) (Z.of_nat (length pre)) = Ok x.
Proof.
  unfold list_getitem, py_norm_index. rewrite length_app. simpl.
  destruct (Z.ltb_spec (Z.of_nat (length pre)) 0); [lia|].
  destruct (Z.leb_spec 0 (Z.of_nat (length pre))); [|lia].
  destruct (Z.ltb_spec (Z.of_nat (length pre))
              (Z.of_nat (length pre + S (length post)))); [|lia].
  simpl. rewrite Nat2Z.id, nth_error_app2, Nat.sub_diag by lia. reflexivity.
Qed.

Lemma list_update_middle {A} (pre : list A) x post y :
  list_update (pre ++ x :: post) (length pre) y = (pre ++ y :: post)%list.
Proof. induction pre as [|a pre IH]; simpl; [reflexivity | rewrite IH; reflexivity]. Qed.

Lemma list_setitem_middle {A} (pre : list A) x post y :
  list_setitem (pre ++ x :: post) (Z.of_nat (length pre)) y = Ok (pre ++ y :: post)%list.
Proof.
  unfold list_setitem, py_norm_index. rewrite length_app. simpl.
  destruct (Z.ltb_spec (Z.of_nat (length pre)) 0); [lia|].
  destruct (Z.leb_spec 0 (Z.of_nat (length pre))); [|lia].
  destruct (Z.ltb_spec (Z.of_nat (length pre))
              (Z.of_nat (length pre + S (length post)))); [|lia].
  simpl. rewrite Nat2Z.id, list_update_middle. reflexivity.
Qed.

(** Unwrapping at the position of [x] replaces [x] by [x.obj()]. *)
Lemma unwrap_at_middle pre x post (s : world W) :
  unwrap_at H (Z.of_nat (length pre)) (pre ++ x :: post) s =
  (o <- call_method H x "obj" [] ;; ret (pre ++ o :: post)%list) s.
Proof.
  unfold unwrap_at, bind, of_result. rewrite list_getitem_middle.
  destruct (call_method H x "obj" [] s) as [[o|e] s1]; [|reflexivity].
  rewrite list_setitem_middle. reflexivity.
Qed.

Lemma list_index_middle (pre : list string) x post :
  ~ In x pre -> list_index (pre ++ x :: post) x = Ok (Z.of_nat (length pre)).
Proof.
  induction pre as [|a pre IH]; intros N; simpl.
  - rewrite String.eqb_refl. reflexivity.
  - destruct (String.eqb_spec a x) as [->|_]; [exfalso; apply N; left; reflexivity|].
    rewrite IH by (intros I; apply N; right; exact I).
    f_equal. lia.
Qed.

Lemma list_index_In (l : list string) x :
  (exists i, list_index l x = Ok i) <-> In x l.
Proof.
  induction l as [|a l IH]; simpl.
  - split; [intros [i E]; discriminate E | intros []].
  - destruct (String.eqb_spec a x) as [->|N].
    + split; [intros _; left; reflexivity | intros _; eexists; reflexivity].
    + split.
      * intros [i E]. right. apply IH.
        destruct (list_index l x) as [j|e]; [eexists; reflexivity | discriminate E].
      * intros [E|I]; [contradiction|].
        apply IH in I as [j E]. rewrite E. eexists; reflexivity.
Qed.

Lemma list_index_error (l : list string) x e :
  list_index l x = Raise e -> e = ValueError.
Proof.
  induction l as [|a l IH]; simpl.
  - intros E. inversion E. reflexivity.
  - destruct (String.eqb a x); [discriminate|].
    destruct (list_index l x); [discriminate|].
    intros E. inversion E. subst. apply IH. reflexivity.
Qed.

(** The target index of an identifier that [MapperEvents] declares. *)
Lemma target_index_of_declared identifier args (w : world W) :
  assoc identifier (declared_members MapperEventsC) = Some args ->
  MapperEvents.target_index_of H identifier w =
  (Ok (match list_index args "target" with
       | Ok i => Some (i - 1)%Z
       | Raise _ => None
       end), w).
Proof.
  intros E. unfold MapperEvents.target_index_of, class_getattr. rewrite E.
  cbv [bind ret try_except_ValueError getargspec_args of_result].
  destruct (list_index args "target") as [i|e] eqn:Ei; [reflexivity|].
  rewrite (list_index_error _ _ _ Ei). reflexivity.
Qed.

End Wrappers.

(** ** The claims about wrapping *)

(** C2. Whatever [MapperEvents.listen] registers for a callback [fn] when
    [retval] is false is a wrapper around [fn]: when a call of the wrapper
    returns, it has called [fn] (on the possibly unwrapped arguments) and
    returns [EXT_CONTINUE], not what [fn] returned; and whenever [fn]
    returns, whatever its value, the wrapper returns [EXT_CONTINUE]. *)
Theorem MapperEvents_listen_without_retval_returns_EXT_CONTINUE :
  forall (W : Type) (H : Host W) (target : pyval) (identifier : string)
         (fn : pyval) (raw propagate : bool) (w : world W) (c : listen_call),
    In c (calls_made
            (MapperEvents.listen H target identifier fn raw false propagate) w) ->
    exists ti,
      lc_fn c = PyClosure (MapperWrap raw false ti fn) /\
      (forall arg kw s v s',
         call H (lc_fn c) arg kw s = (Ok v, s') ->
         v = EXT_CONTINUE H /\
         exists arg' s0 v0,
           unwrap_target H raw ti arg s = (Ok arg', s0) /\
           call H fn arg' kw s0 = (Ok v0, s')) /\
      (forall arg kw s arg' s0 v0 s',
         unwrap_target H raw ti arg s = (Ok arg', s0) ->
         call H fn arg' kw s0 = (Ok v0, s') ->
         call H (lc_fn c) arg kw s = (Ok (EXT_CONTINUE H), s')).
Proof.
  intros W H target identifier fn raw propagate w c I.
  assert (E : exists ti, lc_fn c = PyClosure (MapperWrap raw false ti fn)).
  { apply MapperEvents_listen_logs_fn in I. destruct raw.
    - exists None. exact I.
    - destruct I as (ti & E & _). exists ti. exact E. }
  destruct E as [ti E]. exists ti. rewrite E. split; [reflexivity|]. split.
  - intros arg kw s v s' R. rewrite call_MapperWrap in R. simpl negb in R.
    apply bind_inv_Ok in R as (arg' & s0 & U & R).
    apply bind_inv_Ok in R as (v0 & s1 & C & R).
    inversion R; subst. split; [reflexivity|].
    exists arg', s0, v0. split; assumption.
  - intros arg kw s arg' s0 v0 s' U C. rewrite call_MapperWrap. simpl negb.
    rewrite (bind_Ok _ _ _ _ _ U), (bind_Ok _ _ _ _ _ C). reflexivity.
Qed.

Lemma MapperEvents_listen_without_retval_returns_EXT_CONTINUE_witness :
  call DemoHost.host
    (PyClosure (MapperWrap false false (Some 2%Z) DemoHost.listener))
    [PyInt 1; PyInt 2; DemoHost.state7] [] DemoHost.start
  = (Ok (EXT_CONTINUE DemoHost.host),
     World [] [("listener", [PyInt 1; PyInt 2; PyInstance DemoHost.User 7])]).
Proof.
  destruct (MapperEvents_listen_without_retval_returns_EXT_CONTINUE
              _ DemoHost.host DemoHost.mapper0 "on_before_insert" DemoHost.listener
              false false DemoHost.start
              (ListenCall DemoHost.mapper0 "on_before_insert"
                 (PyClosure (MapperWrap false false (Some 2%Z) DemoHost.listener))
                 [] []))
    as (ti & E & _ & Run).
  - vm_compute. left. reflexivity.
  - apply (Run [PyInt 1; PyInt 2; DemoHost.state7] [] DemoHost.start
               [PyInt 1; PyInt 2; PyInstance DemoHost.User 7] DemoHost.start
               (PyInt 42)).
    + simpl in E. inversion E. reflexivity.
    + reflexivity.
Defined.

(** C10. With [raw] and [retval] both true, [MapperEvents.listen] and
    [AttributeEvents.listen] make no wrapper: every registration they make
    carries [fn] itself, and without [propagate] the call is the one call
    [event.Events.listen(target, identifier, fn)] (with the [propagate]
    argument for attribute events).  The same holds for
    [InstanceEvents.listen] with [raw] true. *)
Theorem raw_listeners_are_registered_unwrapped :
  forall (W : Type) (H : Host W) (target : pyval) (identifier : string) (fn : pyval),
    (* MapperEvents *)
    (forall propagate w c,
       In c (calls_made
               (MapperEvents.listen H target identifier fn true true propagate) w) ->
       lc_fn c = fn) /\
    (forall propagate w,
       MapperEvents.listen H target identifier fn true true propagate w =
       MapperEvents.register H target identifier fn propagate w) /\
    (forall w,
       MapperEvents.listen H target identifier fn true true false w =
       Events_listen H target identifier fn [] [] w) /\
    (* AttributeEvents *)
    (forall active_history propagate w c,
       In c (calls_made
               (AttributeEvents.listen H target identifier fn active_history
                  true true propagate) w) ->
       lc_fn c = fn) /\
    (forall w,
       AttributeEvents.listen H target identifier fn false true true false w =
       Events_listen H target identifier fn [PyBool false] [] w) /\
    (* InstanceEvents *)
    (forall propagate w c,
       In c (calls_made (InstanceEvents.listen H target identifier fn true propagate) w) ->
       lc_fn c = fn) /\
    (forall w,
       InstanceEvents.listen H target identifier fn true false w =
       Events_listen H target identifier fn [] [("propagate", PyBool false)] w).
Proof.
  intros W H target identifier fn. repeat apply conj.
  - intros propagate w c I. apply MapperEvents_listen_logs_fn in I. exact I.
  - intros propagate w. reflexivity.
  - intros w. reflexivity.
  - intros active_history propagate w c.
    apply (logs_only_calls_made (fun c => lc_fn c = fn)).
    apply (AttributeEvents_listen_logs_fn H target identifier fn active_history
             true true propagate).
  - intros w. unfold AttributeEvents.listen, bind, ret. simpl.
    destruct (Events_listen H target identifier fn [PyBool false] [] w) as [[[]|e] w'];
      reflexivity.
  - intros propagate w c.
    apply (logs_only_calls_made (fun c => lc_fn c = fn)).
    apply (InstanceEvents_listen_logs_fn H target identifier fn true propagate).
  - intros w. unfold InstanceEvents.listen, bind, ret. simpl.
    destruct (Events_listen H target identifier fn [] [("propagate", PyBool false)] w)
      as [[[]|e] w']; reflexivity.
Qed.

Lemma raw_listeners_are_registered_unwrapped_witness :
  lc_fn (ListenCall DemoHost.mapper0 "on_translate_row" DemoHost.listener
           [] [("propagate", PyBool true)])
  = DemoHost.listener.
Proof.
  destruct (raw_listeners_are_registered_unwrapped
              _ DemoHost.host DemoHost.mapper0 "on_translate_row" DemoHost.listener)
    as (Unwrapped & _).
  apply (Unwrapped true DemoHost.start).
  vm_compute. left. reflexivity.
Defined.

(** ** Propagation to subclasses *)

Section Propagation.
Context {W : Type} (H : Host W).


Lemma Events_listen_made target identifier fn pos kw (w : world W) :
  calls_made (Events_listen H target identifier fn pos kw) w
  = [ListenCall target identifier fn pos kw].
Proof. apply calls_made_of_log, Events_listen_log. Qed.

(** Switching on [active_history] registers nothing. *)
Lemma active_history_keeps_log target (active_history : bool) (w w1 : world W) :
  (if active_history then
     dispatch <- getattr H target "dispatch" ;;
     setattr H dispatch "active_history" (PyBool true)
   else ret tt) w = (Ok tt, w1) ->
  events_log w1 = events_log w.
Proof.
  intros E0. destruct active_history; [|inversion E0; reflexivity].
  apply bind_inv_Ok in E0 as (d & v & G & S).
  pose proof (lift_log (host_getattr H target "dispatch") w) as Lg.
  unfold getattr in G. rewrite G in Lg.
  pose proof (lift_log (host_setattr H d "active_history" (PyBool true)) v) as Ls.
  unfold setattr in S. rewrite S in Ls. simpl in Lg, Ls. congruence.
Qed.

End Propagation.

(** * Further properties of the module *)

(** ** Equality and subclass tests *)

Fixpoint classref_eqb_refl (c : classref) : classref_eqb c c = true.
Proof.
  destruct c as [n bs]. simpl. rewrite String.eqb_refl. simpl.
  induction bs as [|b bs IH]; [reflexivity|].
  rewrite (classref_eqb_refl b). exact IH.
Qed.

Lemma issubclass_refl (c : classref) : issubclass c c = true.
Proof.
  destruct c as [n bs].
  change (classref_eqb (Class n bs) (Class n bs)
          || existsb (fun b => issubclass b (Class n bs)) bs = true).
  rewrite classref_eqb_refl. reflexivity.
Qed.

Lemma py_is_refl (v : pyval) : py_is v v = true.
Proof.
  induction v using pyval_mut with (P0 := fun c => closure_is c c = true); simpl;
    auto using Bool.eqb_reflx, Z.eqb_refl, String.eqb_refl, classref_eqb_refl.
  - rewrite classref_eqb_refl, Nat.eqb_refl. reflexivity.
  - rewrite !Bool.eqb_reflx, IHv. destruct target_index as [i|]; simpl;
      [rewrite Z.eqb_refl|]; reflexivity.
  - rewrite !Bool.eqb_reflx, IHv. reflexivity.
Qed.

Lemma isinstance_class (c : classref) : isinstance (PyClass c) type_ = true.
Proof. reflexivity. Qed.

Lemma isinstance_of_class (c d : classref) :
  isinstance (PyClass c) d = issubclass type_ d.
Proof. reflexivity. Qed.

(** ** Resolved targets *)

(** X3. What [SessionEvents.accept_with] resolves a target to is a target it
    resolves to itself: when the host's [ScopedSession] class is neither a
    metaclass nor an ancestor of [Session], and [accept_with] returns a
    value other than [None] for a target that is not a scoped session,
    resolving that value again returns it unchanged. *)
Theorem SessionEvents_accept_with_is_idempotent :
  forall (W : Type) (H : Host W) (target v : pyval) (w w' : world W),
    issubclass type_ (ScopedSession H) = false ->
    issubclass (Session H) (ScopedSession H) = false ->
    isinstance target (ScopedSession H) = false ->
    SessionEvents.accept_with H target w = (Ok v, w') ->
    v <> PyNone ->
    SessionEvents.accept_with H v w' = (Ok v, w').
Proof.
  intros W H target v w w' Meta Sess Is E NotNone.
  unfold SessionEvents.accept_with in E. rewrite Is in E.
  destruct (isinstance target type_) eqn:It.
  - destruct (py_issubclass_of_class target (ScopedSession H) It) as [b1 E1].
    destruct (py_issubclass_of_class target (Session H) It) as [b2 E2].
    unfold bind, of_result, ret in E. rewrite E1 in E. destruct b1.
    + inversion E; subst v w'. unfold SessionEvents.accept_with.
      rewrite (isinstance_of_class (Session H) (ScopedSession H)), Meta.
      rewrite isinstance_class. unfold bind, of_result, ret.
      change (py_issubclass (PyClass (Session H)) (ScopedSession H))
        with (Ok (issubclass (Session H) (ScopedSession H))).
      change (py_issubclass (PyClass (Session H)) (Session H))
        with (Ok (issubclass (Session H) (Session H))).
      rewrite Sess, issubclass_refl. reflexivity.
    + rewrite E2 in E. destruct b2; inversion E; subst v w'.
      * unfold SessionEvents.accept_with. rewrite Is, It.
        unfold bind, of_result, ret. rewrite E1, E2. reflexivity.
      * contradiction.
  - destruct (isinstance target (Session H)) eqn:Iss; inversion E; subst v w'.
    + unfold SessionEvents.accept_with. rewrite Is, It, Iss. reflexivity.
    + contradiction.
Qed.

Lemma SessionEvents_accept_with_is_idempotent_witness :
  SessionEvents.accept_with DemoHost.host (PyClass DemoHost.Session_) DemoHost.start
  = (Ok (PyClass DemoHost.Session_), DemoHost.start).
Proof.
  apply (SessionEvents_accept_with_is_idempotent
           _ DemoHost.host (PyClass DemoHost.ScopedSession_) (PyClass DemoHost.Session_)
           DemoHost.start DemoHost.start);
    try reflexivity.
  discriminate.
Defined.

(** X4. The [mapper] function and the [Mapper] class are interchangeable as
    targets for all mappers: [MapperEvents.accept_with] resolves both, and
    nothing else but subclasses of [Mapper] (each to itself), to a mapper
    class; [InstanceEvents.accept_with] resolves the function and every
    subclass of [Mapper] to the [ClassManager] class, provided neither host
    class is a metaclass and the function is an instance of neither. *)
Theorem mapper_function_and_Mapper_class_resolve_alike :
  forall (W : Type) (H : Host W) (w : world W),
    MapperEvents.accept_with H (mapper H) w = (Ok (PyClass (Mapper H)), w) /\
    MapperEvents.accept_with H (PyClass (Mapper H)) w = (Ok (PyClass (Mapper H)), w) /\
    (forall c,
       issubclass c (Mapper H) = true ->
       py_is (PyClass c) (mapper H) = false ->
       MapperEvents.accept_with H (PyClass c) w = (Ok (PyClass c), w)) /\
    (isinstance (mapper H) (ClassManager H) = false ->
     isinstance (mapper H) (Mapper H) = false ->
     InstanceEvents.accept_with H (mapper H) w = (Ok (PyClass (ClassManager H)), w)) /\
    (forall c,
       issubclass type_ (ClassManager H) = false ->
       issubclass type_ (Mapper H) = false ->
       issubclass c (Mapper H) = true ->
       InstanceEvents.accept_with H (PyClass c) w = (Ok (PyClass (ClassManager H)), w)).
Proof.
  intros W H w. repeat apply conj.
  - unfold MapperEvents.accept_with. rewrite py_is_refl. reflexivity.
  - unfold MapperEvents.accept_with.
    destruct (py_is (PyClass (Mapper H)) (mapper H)); [reflexivity|].
    rewrite isinstance_class. unfold bind, of_result, ret.
    change (py_issubclass (PyClass (Mapper H)) (Mapper H))
      with (Ok (issubclass (Mapper H) (Mapper H))).
    rewrite issubclass_refl. reflexivity.
  - intros c Sub NotFn. unfold MapperEvents.accept_with.
    rewrite NotFn, isinstance_class. unfold bind, of_result, ret.
    change (py_issubclass (PyClass c) (Mapper H)) with (Ok (issubclass c (Mapper H))).
    rewrite Sub. reflexivity.
  - intros NoManager NoMapper. unfold InstanceEvents.accept_with.
    rewrite NoManager, NoMapper, py_is_refl. reflexivity.
  - intros c MetaManager MetaMapper Sub. unfold InstanceEvents.accept_with.
    rewrite (isinstance_of_class c (ClassManager H)), MetaManager.
    rewrite (isinstance_of_class c (Mapper H)), MetaMapper.
    destruct (py_is (PyClass c) (mapper H)); [reflexivity|].
    rewrite isinstance_class. unfold bind, of_result, ret.
    change (py_issubclass (PyClass c) (Mapper H)) with (Ok (issubclass c (Mapper H))).
    rewrite Sub. reflexivity.
Qed.

Lemma mapper_function_and_Mapper_class_resolve_alike_witness :
  InstanceEvents.accept_with DemoHost.host (mapper DemoHost.host) DemoHost.start
  = (Ok (PyClass DemoHost.ClassManager_), DemoHost.start) /\
  InstanceEvents.accept_with DemoHost.host (PyClass DemoHost.Mapper_) DemoHost.start
  = (Ok (PyClass DemoHost.ClassManager_), DemoHost.start).
Proof.
  destruct (mapper_function_and_Mapper_class_resolve_alike _ DemoHost.host DemoHost.start)
    as (_ & _ & _ & Fn & Cls).
  split.
  - apply Fn; reflexivity.
  - apply (Cls DemoHost.Mapper_); reflexivity.
Defined.

(** ** The identifier in [MapperEvents.listen] *)

(** X5. [MapperEvents.listen] with [raw] false looks the identifier up
    before it registers anything: for an identifier that the class does not
    declare and [event.Events] does not provide, [listen] raises what the
    lookup raises, registers nothing and leaves the state as it was.  With
    [raw] true the identifier is not looked up, and the same call goes on to
    the registration. *)
Theorem MapperEvents_listen_rejects_unknown_identifier :
  forall (W : Type) (H : Host W) (target : pyval) (identifier : string) (fn : pyval)
         (retval propagate : bool) (e : exn) (w : world W),
    assoc identifier (declared_members MapperEventsC) = None ->
    Events_getattr H identifier = Raise e ->
    MapperEvents.listen H target identifier fn false retval propagate w = (Raise e, w) /\
    calls_made (MapperEvents.listen H target identifier fn false retval propagate) w = [] /\
    MapperEvents.listen H target identifier fn true retval propagate w =
    MapperEvents.register H target identifier
      (if retval then fn else PyClosure (MapperWrap true false None fn)) propagate w.
Proof.
  intros W H target identifier fn retval propagate e w Undeclared Missing.
  assert (T : MapperEvents.target_index_of H identifier w = (Raise e, w)).
  { unfold MapperEvents.target_index_of, class_getattr. rewrite Undeclared.
    unfold bind, of_result. rewrite Missing. reflexivity. }
  assert (R : MapperEvents.listen H target identifier fn false retval propagate w
              = (Raise e, w)).
  { rewrite (MapperEvents_listen_not_raw H target identifier fn retval propagate w _ T).
    reflexivity. }
  split; [exact R|]. split.
  - apply (calls_made_nil _ w (Raise e)). exact R.
  - apply MapperEvents_listen_raw.
Qed.

Lemma MapperEvents_listen_rejects_unknown_identifier_witness :
  MapperEvents.listen DemoHost.host DemoHost.mapper0 "on_before_insrt" DemoHost.listener
    false false true DemoHost.start
  = (Raise AttributeError, DemoHost.start).
Proof.
  apply (MapperEvents_listen_rejects_unknown_identifier
           _ DemoHost.host DemoHost.mapper0 "on_before_insrt" DemoHost.listener
           false true AttributeError DemoHost.start); reflexivity.
Defined.

(** X6. The [except ValueError] of [MapperEvents.listen] catches
    [ValueError] and nothing else.  For an attribute inherited from
    [event.Events]: when its signature has no parameter named [target], and
    also when [inspect.getargspec] itself raises [ValueError] on it, the
    target index is [None]; when [inspect.getargspec] fails with any other
    error, [listen] with [raw] false raises that error and registers
    nothing. *)
Theorem MapperEvents_listen_catches_only_ValueError :
  forall (W : Type) (H : Host W) (identifier : string) (v : pyval) (w : world W),
    assoc identifier (declared_members MapperEventsC) = None ->
    Events_getattr H identifier = Ok v ->
    (forall args,
       host_getargspec H v = Ok args -> ~ In "target" args ->
       MapperEvents.target_index_of H identifier w = (Ok None, w)) /\
    (host_getargspec H v = Raise ValueError ->
     MapperEvents.target_index_of H identifier w = (Ok None, w)) /\
    (forall e target fn retval propagate,
       host_getargspec H v = Raise e -> e <> ValueError ->
       MapperEvents.listen H target identifier fn false retval propagate w
       = (Raise e, w) /\
       calls_made (MapperEvents.listen H target identifier fn false retval propagate) w
       = []).
Proof.
  intros W H identifier v w Undeclared Found.
  assert (T : MapperEvents.target_index_of H identifier w =
              try_except_ValueError
                (args <- of_result (host_getargspec H v) ;;
                 i <- of_result (list_index args "target") ;;
                 ret (Some (i - 1)%Z))
                (ret None) w).
  { unfold MapperEvents.target_index_of, class_getattr. rewrite Undeclared.
    unfold bind at 1. unfold bind at 1. unfold of_result at 1. rewrite Found.
    reflexivity. }
  repeat apply conj.
  - intros args Spec NoTarget. rewrite T.
    unfold try_except_ValueError, bind, of_result, ret. rewrite Spec.
    destruct (list_index args "target") as [i|e] eqn:Ei.
    + exfalso. apply NoTarget. apply list_index_In. exists i. exact Ei.
    + rewrite (list_index_error _ _ _ Ei). reflexivity.
  - intros Spec. rewrite T.
    unfold try_except_ValueError, bind, of_result, ret. rewrite Spec. reflexivity.
  - intros e target fn retval propagate Spec NotValue.
    assert (T' : MapperEvents.target_index_of H identifier w = (Raise e, w)).
    { rewrite T. unfold try_except_ValueError, bind, of_result, ret. rewrite Spec.
      destruct e; try reflexivity. contradiction. }
    assert (R : MapperEvents.listen H target identifier fn false retval propagate w
                = (Raise e, w)).
    { rewrite (MapperEvents_listen_not_raw H target identifier fn retval propagate w _ T').
      reflexivity. }
    split; [exact R|]. apply (calls_made_nil _ w (Raise e)). exact R.
Qed.

Lemma MapperEvents_listen_catches_only_ValueError_witness :
  MapperEvents.target_index_of DemoHost.strict_host "helper" DemoHost.start
  = (Ok None, DemoHost.start) /\
  MapperEvents.listen DemoHost.strict_host DemoHost.mapper0 "dispatch" DemoHost.listener
    false false false DemoHost.start
  = (Raise TypeError, DemoHost.start).
Proof.
  split.
  - destruct (MapperEvents_listen_catches_only_ValueError
                _ DemoHost.strict_host "helper" (PyFunction "helper") DemoHost.start
                eq_refl eq_refl) as (NoTarget & _).
    apply (NoTarget ["cls"; "arg"]); [reflexivity|].
    intros [E|[E|[]]]; discriminate E.
  - destruct (MapperEvents_listen_catches_only_ValueError
                _ DemoHost.strict_host "dispatch" (PyInstance DemoHost.Dispatch_ 0)
                DemoHost.start eq_refl eq_refl) as (_ & _ & Fails).
    apply (Fails TypeError DemoHost.mapper0 DemoHost.listener false false);
      [reflexivity | discriminate].
Defined.

(** ** Registrations that fail part of the way *)

Section Rejection.
Context {W : Type} (H : Host W).

(** A loop of registrations ends at the first one that the core rejects:
    the ones before it are made, the rejected call is the last one logged,
    the ones after it are not attempted. *)
Lemma for_each_Events_listen_rejected {A} (f : A -> pyval) identifier fn pos kw
    (pre : list A) (m : A) (post : list A) (e : exn) :
  (forall x h, In x pre ->
     exists h', Events_listen_result H (ListenCall (f x) identifier fn pos kw) h
                = (Ok tt, h')) ->
  (forall h,
     exists h', Events_listen_result H (ListenCall (f m) identifier fn pos kw) h
                = (Raise e, h')) ->
  forall w : world W,
  exists w',
    for_each (pre ++ m :: post) (fun x => Events_listen H (f x) identifier fn pos kw) w
    = (Raise e, w') /\
    events_log w' =
    (events_log w
     ++ map (fun x => ListenCall (f x) identifier fn pos kw) (pre ++ [m]))%list.
Proof.
  intros Acc Rej. induction pre as [|x pre IH]; intros w; simpl.
  - destruct (Rej (host_state w)) as [h' E].
    unfold bind, Events_listen. rewrite E. eexists. split; reflexivity.
  - destruct (Acc x (host_state w) (or_introl eq_refl)) as [h' E].
    destruct (IH (fun y h I => Acc y h (or_intror I))
                (World (events_log w ++ [ListenCall (f x) identifier fn pos kw]) h'))
      as (w' & R & L).
    exists w'. unfold bind at 1. unfold Events_listen at 1. rewrite E.
    split; [exact R|]. rewrite L. simpl. rewrite <- app_assoc. reflexivity.
Qed.

End Rejection.

(** X7. Propagation is not all-or-nothing.  When the event core rejects the
    registration on one mapper of [target.self_and_descendants],
    [MapperEvents.listen] with [propagate] true raises the core's error; the
    mappers before it stay registered, the rejected call is the last one
    made, and the mappers after it are never offered to the core. *)
Theorem MapperEvents_listen_stops_at_first_rejection :
  forall (W : Type) (H : Host W) (target : pyval) (identifier : string) (fn : pyval)
         (raw retval : bool) (ti : option Z) (w : world W) (it : pyval)
         (w1 : world W) (pre : list pyval) (m : pyval) (post : list pyval)
         (w2 : world W) (e : exn),
    let fn' := if raw && retval then fn
               else PyClosure (MapperWrap raw retval ti fn) in
    let registration :=
      fun x => ListenCall x identifier fn' [] [("propagate", PyBool true)] in
    (if raw then ti = None
     else MapperEvents.target_index_of H identifier w = (Ok ti, w)) ->
    getattr H target "self_and_descendants" w = (Ok it, w1) ->
    lift (host_iter H it) w1 = (Ok (pre ++ m :: post)%list, w2) ->
    (forall x h, In x pre ->
       exists h', Events_listen_result H (registration x) h = (Ok tt, h')) ->
    (forall h, exists h', Events_listen_result H (registration m) h = (Raise e, h')) ->
    exists w',
      MapperEvents.listen H target identifier fn raw retval true w = (Raise e, w') /\
      events_log w' = (events_log w ++ map registration (pre ++ [m]))%list.
Proof.
  intros W H target identifier fn raw retval ti w it w1 pre m post w2 e fn'
    registration T E1 E2 Acc Rej.
  destruct (for_each_Events_listen_rejected H (fun x => x) identifier fn' []
              [("propagate", PyBool true)] pre m post e Acc Rej w2) as (w' & R & L).
  exists w'.
  assert (Reg : MapperEvents.listen H target identifier fn raw retval true w
                = MapperEvents.register H target identifier fn' true w).
  { destruct raw.
    - rewrite MapperEvents_listen_raw. subst ti fn'. destruct retval; reflexivity.
    - rewrite (MapperEvents_listen_not_raw H target identifier fn retval true w _ T).
      reflexivity. }
  rewrite Reg. unfold MapperEvents.register.
  rewrite (bind_Ok _ _ _ _ _ E1), (bind_Ok _ _ _ _ _ E2). split; [exact R|].
  rewrite L.
  pose proof (lift_log (host_iter H it) w1) as L2. rewrite E2 in L2.
  pose proof (lift_log (host_getattr H target "self_and_descendants") w) as L1.
  unfold getattr in E1. rewrite E1 in L1. simpl in L1, L2.
  rewrite L2, L1. reflexivity.
Qed.

Lemma MapperEvents_listen_stops_at_first_rejection_witness :
  exists w',
    MapperEvents.listen DemoHost.strict_host DemoHost.mapper0 "on_load" DemoHost.listener
      true true true DemoHost.start = (Raise (HostError "rejected"), w') /\
    events_log w' =
    [ ListenCall (PyInstance DemoHost.Mapper_ 0) "on_load" DemoHost.listener []
        [("propagate", PyBool true)];
      ListenCall (PyInstance DemoHost.Mapper_ 1) "on_load" DemoHost.listener []
        [("propagate", PyBool true)] ].
Proof.
  apply (MapperEvents_listen_stops_at_first_rejection
           _ DemoHost.strict_host DemoHost.mapper0 "on_load" DemoHost.listener
           true true None DemoHost.start (PyInstance DemoHost.deque_ 0) DemoHost.start
           [PyInstance DemoHost.Mapper_ 0] (PyInstance DemoHost.Mapper_ 1)
           [PyInstance DemoHost.Mapper_ 2] DemoHost.start (HostError "rejected")).
  - reflexivity.
  - reflexivity.
  - reflexivity.
  - intros x h [<-|[]]. exists h. reflexivity.
  - intros h. exists h. reflexivity.
Defined.

(** X8. [InstanceEvents.listen] registers on the target before it asks for
    the subclass managers.  When the core rejects that first registration
    nothing else is attempted; when [target.subclass_managers(True)] raises,
    [listen] raises the same error and the registration on the target, the
    only one made, stays. *)
Theorem InstanceEvents_listen_registers_target_first :
  forall (W : Type) (H : Host W) (target : pyval) (identifier : string) (fn : pyval)
         (raw : bool) (w w1 : world W) (e : exn),
    let fn' := if raw then fn else PyClosure (InstanceWrap fn) in
    let first := ListenCall target identifier fn' [] [("propagate", PyBool true)] in
    (Events_listen H target identifier fn' [] [("propagate", PyBool true)] w
     = (Raise e, w1) ->
     InstanceEvents.listen H target identifier fn raw true w = (Raise e, w1) /\
     events_log w1 = (events_log w ++ [first])%list) /\
    (forall w2,
       Events_listen H target identifier fn' [] [("propagate", PyBool true)] w
       = (Ok tt, w1) ->
       call_method H target "subclass_managers" [PyBool true] w1 = (Raise e, w2) ->
       InstanceEvents.listen H target identifier fn raw true w = (Raise e, w2) /\
       events_log w2 = (events_log w ++ [first])%list).
Proof.
  intros W H target identifier fn raw w w1 e fn' first.
  assert (F : (if negb raw then PyClosure (InstanceWrap fn) else fn) = fn')
    by (destruct raw; reflexivity).
  pose proof (Events_listen_log H target identifier fn' []
                [("propagate", PyBool true)] w) as L1.
  split.
  - intros E1. rewrite E1 in L1. split; [|exact L1].
    unfold InstanceEvents.listen. rewrite F. apply bind_Raise. exact E1.
  - intros w2 E1 E2. rewrite E1 in L1. simpl in L1.
    pose proof (lift_log (host_call_method H target "subclass_managers" [PyBool true]) w1)
      as L2. unfold call_method in E2. rewrite E2 in L2. simpl in L2.
    split; [|rewrite L2, L1; reflexivity].
    unfold InstanceEvents.listen. rewrite F.
    rewrite (bind_Ok _ _ _ _ _ E1). apply bind_Raise. exact E2.
Qed.

Lemma InstanceEvents_listen_registers_target_first_witness :
  InstanceEvents.listen DemoHost.host DemoHost.mapper0 "on_load" DemoHost.listener
    true true DemoHost.start
  = (Raise AttributeError,
     World [ListenCall DemoHost.mapper0 "on_load" DemoHost.listener []
              [("propagate", PyBool true)]] []).
Proof.
  destruct (InstanceEvents_listen_registers_target_first
              _ DemoHost.host DemoHost.mapper0 "on_load" DemoHost.listener true
              DemoHost.start
              (World [ListenCall DemoHost.mapper0 "on_load" DemoHost.listener []
                        [("propagate", PyBool true)]] [])
              AttributeError) as (_ & Lookup).
  apply (Lookup (World [ListenCall DemoHost.mapper0 "on_load" DemoHost.listener []
                          [("propagate", PyBool true)]] [])); reflexivity.
Defined.

(** ** The wrappers at their edges *)

Lemma py_norm_index_out_of_range {A} (l : list A) (i : Z) :
  (Z.of_nat (length l) <= i \/ i < - Z.of_nat (length l))%Z ->
  py_norm_index l i = None.
Proof.
  intros Out. unfold py_norm_index.
  destruct (Z.ltb_spec i 0).
  - destruct (Z.leb_spec 0 (i + Z.of_nat (length l))); [|reflexivity].
    destruct (Z.ltb_spec (i + Z.of_nat (length l)) (Z.of_nat (length l)));
      [lia | reflexivity].
  - destruct (Z.leb_spec 0 i); [|reflexivity].
    destruct (Z.ltb_spec i (Z.of_nat (length l))); [lia | reflexivity].
Qed.

Lemma py_norm_index_lt {A} (l : list A) (i : Z) (k : nat) :
  py_norm_index l i = Some k -> k < length l.
Proof.
  unfold py_norm_index.
  destruct (Z.ltb_spec i 0).
  - destruct (Z.leb_spec 0 (i + Z.of_nat (length l))); [|discriminate].
    destruct (Z.ltb_spec (i + Z.of_nat (length l)) (Z.of_nat (length l)));
      [|discriminate].
    intros E. inversion E. lia.
  - destruct (Z.leb_spec 0 i); [|discriminate].
    destruct (Z.ltb_spec i (Z.of_nat (length l))); [|discriminate].
    intros E. inversion E. lia.
Qed.

Lemma list_update_length {A} (l : list A) k x :
  length (list_update l k x) = length l.
Proof.
  revert k. induction l as [|a l IH]; intros [|k]; simpl; auto.
Qed.

Lemma list_update_same {A} (l : list A) k x :
  k < length l -> nth_error (list_update l k x) k = Some x.
Proof.
  revert k. induction l as [|a l IH]; intros [|k] Lt; simpl in *; try lia.
  - reflexivity.
  - apply IH. lia.
Qed.

Lemma list_update_other {A} (l : list A) k j x :
  j <> k -> nth_error (list_update l k x) j = nth_error l j.
Proof.
  revert k j.
  induction l as [|a l IH]; intros [|k] [|j] N; simpl; try contradiction; auto.
Qed.

(** X9. A call of the mapper wrapper with too few positional arguments for
    its target index (or a negative index beyond the first argument) raises
    [IndexError] at once: the user callback is not called and the state is
    as before, whatever keyword arguments were given. *)
Theorem MapperWrap_raises_IndexError_out_of_range :
  forall (W : Type) (H : Host W) (retval : bool) (i : Z) (fn : pyval)
         (arg : list pyval) (kw : kwargs) (s : world W),
    (Z.of_nat (length arg) <= i \/ i < - Z.of_nat (length arg))%Z ->
    call H (PyClosure (MapperWrap false retval (Some i) fn)) arg kw s
    = (Raise IndexError, s).
Proof.
  intros W H retval i fn arg kw s Out. rewrite call_MapperWrap.
  unfold unwrap_target, unwrap_at, list_getitem. simpl negb.
  rewrite (py_norm_index_out_of_range arg i Out). reflexivity.
Qed.

Lemma MapperWrap_raises_IndexError_out_of_range_witness :
  call DemoHost.host (PyClosure (MapperWrap false false (Some 2%Z) DemoHost.listener))
    [PyInt 1; PyInt 2] [("target", DemoHost.state7)] DemoHost.start
  = (Raise IndexError, DemoHost.start).
Proof.
  apply MapperWrap_raises_IndexError_out_of_range. simpl. lia.
Defined.

(** X10. The mapper wrapper changes one argument and nothing else.  When
    the unwrapping step returns, the argument list it hands on has the
    length of the one it received; every position but the target position
    holds the argument it held; the target position holds what [.obj()] of
    the argument there returned.  With [raw] true, or no target index, the
    list is handed on as it is and nothing is called. *)
Theorem unwrap_target_changes_only_the_target :
  forall (W : Type) (H : Host W) (raw : bool) (ti : option Z)
         (arg arg' : list pyval) (s s' : world W),
    unwrap_target H raw ti arg s = (Ok arg', s') ->
    length arg' = length arg /\
    match raw, ti with
    | false, Some i =>
        exists k x o,
          py_norm_index arg i = Some k /\
          nth_error arg k = Some x /\
          call_method H x "obj" [] s = (Ok o, s') /\
          nth_error arg' k = Some o /\
          forall j, j <> k -> nth_error arg' j = nth_error arg j
    | _, _ => arg' = arg /\ s' = s
    end.
Proof.
  intros W H raw ti arg arg' s s' U. unfold unwrap_target in U.
  destruct raw; simpl in U.
  - inversion U. subst. destruct ti; auto.
  - destruct ti as [i|]; [|inversion U; subst; auto].
    unfold unwrap_at in U.
    apply bind_inv_Ok in U as (x & s1 & G & U).
    apply bind_inv_Ok in U as (o & s2 & C & U).
    unfold of_result in G, U. unfold list_getitem in G. unfold list_setitem in U.
    destruct (py_norm_index arg i) as [k|] eqn:Ek; [|discriminate G].
    destruct (nth_error arg k) as [x0|] eqn:Ex; inversion G; subst x0 s1.
    inversion U; subst arg' s2.
    pose proof (py_norm_index_lt arg i k Ek) as Lt.
    split; [apply list_update_length|].
    exists k, x, o. repeat split; auto.
    + apply list_update_same. exact Lt.
    + intros j N. apply list_update_other. exact N.
Qed.

Lemma unwrap_target_changes_only_the_target_witness :
  length [PyInt 1; PyInt 2; PyInstance DemoHost.User 7] = 3 /\
  exists k x o,
    py_norm_index [PyInt 1; PyInt 2; DemoHost.state7] (-1) = Some k /\
    nth_error [PyInt 1; PyInt 2; DemoHost.state7] k = Some x /\
    call_method DemoHost.host x "obj" [] DemoHost.start = (Ok o, DemoHost.start) /\
    nth_error [PyInt 1; PyInt 2; PyInstance DemoHost.User 7] k = Some o /\
    forall j, j <> k ->
      nth_error [PyInt 1; PyInt 2; PyInstance DemoHost.User 7] j
      = nth_error [PyInt 1; PyInt 2; DemoHost.state7] j.
Proof.
  apply (unwrap_target_changes_only_the_target
           _ DemoHost.host false (Some (-1)%Z) [PyInt 1; PyInt 2; DemoHost.state7]
           [PyInt 1; PyInt 2; PyInstance DemoHost.User 7] DemoHost.start DemoHost.start).
  reflexivity.
Defined.

(** X11. The wrappers catch nothing.  When the user callback raises, the
    wrapper around it raises the same exception and ends in the state the
    callback left, for each of the three wrappers and whatever the [raw] and
    [retval] flags: a listener can stop an operation by raising. *)
Theorem wrappers_pass_on_exceptions_of_the_callback :
  forall (W : Type) (H : Host W) (fn : pyval) (e : exn) (kw : kwargs),
    (forall state rest s o s0 s',
       has_key "state" kw = false ->
       call_method H state "obj" [] s = (Ok o, s0) ->
       call H fn (o :: rest) kw s0 = (Raise e, s') ->
       call H (PyClosure (InstanceWrap fn)) (state :: rest) kw s = (Raise e, s')) /\
    (forall raw retval ti arg s arg' s0 s',
       unwrap_target H raw ti arg s = (Ok arg', s0) ->
       call H fn arg' kw s0 = (Raise e, s') ->
       call H (PyClosure (MapperWrap raw retval ti fn)) arg kw s = (Raise e, s')) /\
    (forall (raw retval : bool) target value rest s target' s0 s',
       (if raw then ret target else call_method H target "obj" []) s
       = (Ok target', s0) ->
       call H fn (target' :: value :: rest) [] s0 = (Raise e, s') ->
       call H (PyClosure (AttributeWrap raw retval fn)) (target :: value :: rest) [] s
       = (Raise e, s')).
Proof.
  intros W H fn e kw. repeat apply conj.
  - intros state rest s o s0 s' Hk O C.
    rewrite (call_InstanceWrap H fn state rest kw Hk).
    rewrite (bind_Ok _ _ _ _ _ O). exact C.
  - intros raw retval ti arg s arg' s0 s' U C. rewrite call_MapperWrap.
    rewrite (bind_Ok _ _ _ _ _ U). destruct retval; simpl negb.
    + exact C.
    + apply bind_Raise. exact C.
  - intros raw retval target value rest s target' s0 s' U C.
    rewrite call_AttributeWrap.
    assert (U' : (if negb raw then call_method H target "obj" [] else ret target) s
                 = (Ok target', s0)) by (destruct raw; exact U).
    rewrite (bind_Ok _ _ _ _ _ U'). destruct retval; simpl negb.
    + exact C.
    + apply bind_Raise. exact C.
Qed.

Lemma wrappers_pass_on_exceptions_of_the_callback_witness :
  call DemoHost.host (PyClosure (AttributeWrap false false (PyFunction "failing")))
    [DemoHost.state7; PyStr "new"] [] DemoHost.start
  = (Raise (HostError "failing"),
     World [] [("failing", [PyInstance DemoHost.User 7; PyStr "new"])]).
Proof.
  destruct (wrappers_pass_on_exceptions_of_the_callback
              _ DemoHost.host (PyFunction "failing") (HostError "failing") [])
    as (_ & _ & Attribute).
  apply (Attribute false false DemoHost.state7 (PyStr "new") [] DemoHost.start
           (PyInstance DemoHost.User 7) DemoHost.start); reflexivity.
Defined.

(** X12. With [raw] false the state argument must answer [.obj()].  When
    that call raises (the argument is no instance state, as the class
    manager that [on_first_init] passes first), the wrapper raises the same
    exception and the user callback is not called: the state is the one the
    failed [.obj()] left. *)
Theorem wrappers_need_obj_on_the_state_argument :
  forall (W : Type) (H : Host W) (fn : pyval) (e : exn) (s s' : world W),
    (forall state rest kw,
       has_key "state" kw = false ->
       call_method H state "obj" [] s = (Raise e, s') ->
       call H (PyClosure (InstanceWrap fn)) (state :: rest) kw s = (Raise e, s')) /\
    (forall retval i arg x kw,
       list_getitem arg i = Ok x ->
       call_method H x "obj" [] s = (Raise e, s') ->
       call H (PyClosure (MapperWrap false retval (Some i) fn)) arg kw s
       = (Raise e, s')) /\
    (forall retval target value rest,
       call_method H target "obj" [] s = (Raise e, s') ->
       call H (PyClosure (AttributeWrap false retval fn)) (target :: value :: rest) [] s
       = (Raise e, s')).
Proof.
  intros W H fn e s s'. repeat apply conj.
  - intros state rest kw Hk O.
    rewrite (call_InstanceWrap H fn state rest kw Hk). apply bind_Raise. exact O.
  - intros retval i arg x kw G O. rewrite call_MapperWrap. apply bind_Raise.
    unfold unwrap_target, unwrap_at. simpl negb.
    unfold bind at 1. unfold of_result at 1. rewrite G.
    apply bind_Raise. exact O.
  - intros retval target value rest O. rewrite call_AttributeWrap.
    apply bind_Raise. exact O.
Qed.

Lemma wrappers_need_obj_on_the_state_argument_witness :
  call DemoHost.host (PyClosure (InstanceWrap DemoHost.listener))
    [DemoHost.manager0; PyClass DemoHost.User] [] DemoHost.start
  = (Raise AttributeError, DemoHost.start).
Proof.
  destruct (wrappers_need_obj_on_the_state_argument
              _ DemoHost.host DemoHost.listener AttributeError DemoHost.start
              DemoHost.start) as (Instance & _).
  apply Instance; reflexivity.
Defined.

(** ** The wrappers and the declared signatures *)

Ltac list_of_length Len l :=
  repeat (destruct l as [|? l]; simpl in Len;
          [try discriminate Len | first [discriminate Len | injection Len as Len]]).

(** X13. The target index always points into a well-formed call.  For every
    hook that [MapperEvents] declares and every list of positional arguments
    of the hook's arity (its parameters after [self]), the target index
    computed for the hook is either [None], when the hook has no [target]
    parameter, or an index within the argument list, at the position of the
    parameter named [target]: the wrapper never raises [IndexError] of its
    own on such a call. *)
Theorem MapperEvents_target_index_is_in_range :
  forall (W : Type) (H : Host W) (identifier : string) (args : list string)
         (arg : list pyval),
    In (identifier, args) (hooks MapperEventsC) ->
    S (length arg) = length args ->
    exists ti,
      (forall w : world W, MapperEvents.target_index_of H identifier w = (Ok ti, w)) /\
      match ti with
      | Some i =>
          exists k, py_norm_index arg i = Some k /\
                    nth_error args (S k) = Some "target"
      | None => ~ In "target" args
      end.
Proof.
  intros W H identifier args arg I Len. simpl in I.
  repeat (destruct I as [I|I];
          [inversion I; subst identifier args; clear I; simpl in Len;
           injection Len as Len; list_of_length Len arg;
           eexists; (split; [intros w; reflexivity|]);
           first [ eexists; split; reflexivity
                 | simpl; intuition discriminate ]|]).
  destruct I.
Qed.

Lemma MapperEvents_target_index_is_in_range_witness :
  exists ti,
    (forall w, MapperEvents.target_index_of DemoHost.host "on_populate_instance" w
               = (Ok ti, w)) /\
    match ti with
    | Some i =>
        exists k,
          py_norm_index [DemoHost.mapper0; PyNone; PyNone; DemoHost.state7] i = Some k /\
          nth_error ["self"; "mapper"; "context"; "row"; "target"] (S k) = Some "target"
    | None => ~ In "target" ["self"; "mapper"; "context"; "row"; "target"]
    end.
Proof.
  apply (MapperEvents_target_index_is_in_range
           _ DemoHost.host "on_populate_instance"
           ["self"; "mapper"; "context"; "row"; "target"]
           [DemoHost.mapper0; PyNone; PyNone; DemoHost.state7]).
  - simpl. tauto.
  - reflexivity.
Defined.

(** ** How the wrappers bind their arguments *)

Section Binding.
Context {W : Type} (H : Host W).

Lemma assign_keywords_without_state kw : forall extra,
  has_key "state" kw = false ->
  assign_keywords ["state"] true [] extra kw = Ok ([], (rev extra ++ kw)%list).
Proof.
  induction kw as [|[k v] kw IH]; intros extra Hk; cbn [assign_keywords].
  - rewrite app_nil_r. reflexivity.
  - unfold has_key in Hk |- *. cbn [existsb fst] in Hk |- *.
    apply orb_false_elim in Hk as [Hk1 Hk2].
    rewrite Hk1. cbn [orb].
    rewrite (IH ((k, v) :: extra) Hk2). cbn [rev].
    rewrite <- app_assoc. reflexivity.
Qed.

Lemma assign_keywords_state_twice (st : pyval) kw : forall extra,
  has_key "state" kw = true ->
  assign_keywords ["state"] true [("state", st)] extra kw = Raise TypeError.
Proof.
  induction kw as [|[k v] kw IH]; intros extra Hk; cbn [assign_keywords].
  - discriminate Hk.
  - unfold has_key in Hk |- *. cbn [existsb fst] in Hk |- *.
    rewrite (String.eqb_sym "state" k).
    destruct (String.eqb k "state") eqn:Ek; cbn [orb] in Hk |- *; [reflexivity|].
    apply IH. exact Hk.
Qed.

Lemma call_InstanceWrap_bind fn arg kw :
  call H (PyClosure (InstanceWrap fn)) arg kw =
  match bind_call ["state"] true arg kw with
  | Ok ([state], arg, kw) =>
      o <- call_method H state "obj" [] ;; call H fn (o :: arg) kw
  | Ok _ => raise TypeError
  | Raise e => raise e
  end.
Proof. reflexivity. Qed.

Lemma call_AttributeWrap_bind raw retval fn arg kw :
  call H (PyClosure (AttributeWrap raw retval fn)) arg kw =
  match bind_call ["target"; "value"] false arg kw with
  | Ok ([target; value], arg, _) =>
      target <- (if negb raw then call_method H target "obj" [] else ret target) ;;
      if negb retval then call H fn (target :: value :: arg) [] ;;; ret value
      else call H fn (target :: value :: arg) []
  | Ok _ => raise TypeError
  | Raise e => raise e
  end.
Proof. reflexivity. Qed.

End Binding.

(** X14. The instance wrapper takes its state from the first positional
    argument or, when there is none, from the keyword [state]; either way it
    is the [.obj()] of that value that reaches the callback.  A call that
    gives no state, or gives it both ways, raises [TypeError] without
    calling anything. *)
Theorem InstanceWrap_binds_state :
  forall (W : Type) (H : Host W) (fn : pyval) (kw : kwargs) (s : world W),
    (has_key "state" kw = false ->
     call H (PyClosure (InstanceWrap fn)) [] kw s = (Raise TypeError, s)) /\
    (forall state,
       has_key "state" kw = false ->
       call H (PyClosure (InstanceWrap fn)) [] (("state", state) :: kw) s =
       (o <- call_method H state "obj" [] ;; call H fn [o] kw) s) /\
    (forall state rest,
       has_key "state" kw = true ->
       call H (PyClosure (InstanceWrap fn)) (state :: rest) kw s = (Raise TypeError, s)).
Proof.
  intros W H fn kw s. repeat apply conj.
  - intros Hk. rewrite call_InstanceWrap_bind. unfold bind_call. cbn [combine firstn length].
    rewrite (assign_keywords_without_state kw [] Hk). reflexivity.
  - intros state Hk. rewrite call_InstanceWrap_bind. unfold bind_call.
    cbn [combine firstn length]. cbn [assign_keywords has_key existsb fst].
    rewrite String.eqb_refl. cbn [orb].
    rewrite (assign_keywords_state state kw [] Hk). reflexivity.
  - intros state rest Hk. rewrite call_InstanceWrap_bind. unfold bind_call.
    cbn [combine firstn length]. rewrite (assign_keywords_state_twice state kw [] Hk). reflexivity.
Qed.

Lemma InstanceWrap_binds_state_witness :
  call DemoHost.host (PyClosure (InstanceWrap DemoHost.listener)) []
    [("state", DemoHost.state7); ("flag", PyBool true)] DemoHost.start
  = (Ok (PyInt 42), World [] [("listener", [PyInstance DemoHost.User 7])]) /\
  call DemoHost.host (PyClosure (InstanceWrap DemoHost.listener)) [DemoHost.state7]
    [("state", DemoHost.state7)] DemoHost.start
  = (Raise TypeError, DemoHost.start).
Proof.
  split.
  - destruct (InstanceWrap_binds_state _ DemoHost.host DemoHost.listener
                [("flag", PyBool true)] DemoHost.start) as (_ & Keyword & _).
    rewrite Keyword; reflexivity.
  - destruct (InstanceWrap_binds_state _ DemoHost.host DemoHost.listener
                [("state", DemoHost.state7)] DemoHost.start) as (_ & _ & Twice).
    apply Twice. reflexivity.
Defined.

(** X15. The attribute wrapper accepts its target and value and further
    positional arguments only.  A call with fewer than two positional
    arguments and no keywords, and a call with two or more positional
    arguments and any keyword at all, raise [TypeError]; the callback is not
    called and the state is as before. *)
Theorem AttributeWrap_rejects_other_call_shapes :
  forall (W : Type) (H : Host W) (raw retval : bool) (fn : pyval)
         (arg : list pyval) (kw : kwargs) (s : world W),
    (length arg < 2 /\ kw = []) \/ (2 <= length arg /\ kw <> []) ->
    call H (PyClosure (AttributeWrap raw retval fn)) arg kw s = (Raise TypeError, s).
Proof.
  intros W H raw retval fn arg kw s Shape. rewrite call_AttributeWrap_bind.
  destruct Shape as [[Short ->]|[Long Keywords]].
  - destruct arg as [|t [|v rest]]; simpl in Short; try lia; reflexivity.
  - destruct arg as [|t [|v rest]]; simpl in Long; try lia.
    destruct kw as [|[k x] kw]; [contradiction|].
    unfold bind_call. cbn [combine firstn length]. cbn [assign_keywords has_key existsb fst].
    rewrite (String.eqb_sym "target" k), (String.eqb_sym "value" k).
    destruct (String.eqb k "target" || (String.eqb k "value" || false)); reflexivity.
Qed.

Lemma AttributeWrap_rejects_other_call_shapes_witness :
  call DemoHost.host (PyClosure (AttributeWrap false true DemoHost.listener))
    [DemoHost.state7; PyStr "new"; PyStr "old"] [("initiator", PyNone)] DemoHost.start
  = (Raise TypeError, DemoHost.start).
Proof.
  apply AttributeWrap_rejects_other_call_shapes. right. split.
  - simpl. lia.
  - discriminate.
Defined.

(** ** What every registration carries *)

(** X16. [listen] never registers under another event name: every call that
    the [listen] of [InstrumentationEvents], [InstanceEvents], [MapperEvents]
    or [AttributeEvents] makes to [event.Events.listen], on the target or on
    a subclass manager, mapper or attribute, and whether or not the run ends
    in an error, carries the identifier that [listen] was given. *)
Theorem listen_registers_under_the_given_identifier :
  forall (W : Type) (H : Host W) (target : pyval) (identifier : string) (fn : pyval)
         (active_history raw retval propagate : bool) (w : world W) (c : listen_call),
    (In c (calls_made (InstrumentationEvents.listen H target identifier fn propagate) w) ->
     lc_identifier c = identifier) /\
    (In c (calls_made (InstanceEvents.listen H target identifier fn raw propagate) w) ->
     lc_identifier c = identifier) /\
    (In c (calls_made
             (MapperEvents.listen H target identifier fn raw retval propagate) w) ->
     lc_identifier c = identifier) /\
    (In c (calls_made
             (AttributeEvents.listen H target identifier fn active_history raw retval
                propagate) w) ->
     lc_identifier c = identifier).
Proof.
  intros W H target identifier fn active_history raw retval propagate w c.
  set (P := fun c : listen_call => lc_identifier c = identifier).
  repeat apply conj.
  - apply (logs_only_calls_made P).
    apply logs_only_Events_listen. reflexivity.
  - apply (logs_only_calls_made P). unfold InstanceEvents.listen.
    apply logs_only_bind; [apply logs_only_Events_listen; reflexivity|].
    intros _. apply logs_only_if; [|apply logs_only_ret].
    apply logs_only_bind; [apply logs_only_lift|]. intros it.
    apply logs_only_bind; [apply logs_only_lift|]. intros managers.
    apply logs_only_for_each. intros mgr.
    apply logs_only_Events_listen. reflexivity.
  - apply (logs_only_calls_made P). unfold MapperEvents.listen.
    apply logs_only_bind.
    + apply logs_only_if; [|apply logs_only_ret].
      apply logs_only_bind; [|intros ti; apply logs_only_ret].
      apply logs_only_if; [|apply logs_only_ret].
      unfold MapperEvents.target_index_of, class_getattr.
      apply logs_only_bind.
      * destruct (assoc identifier (declared_members MapperEventsC));
          [apply logs_only_ret|].
        apply logs_only_bind; [apply logs_only_of_result|].
        intros v. apply logs_only_ret.
      * intros meth. apply logs_only_try; [|apply logs_only_ret].
        apply logs_only_bind.
        { destruct meth; [apply logs_only_ret | apply logs_only_of_result]. }
        intros args. apply logs_only_bind; [apply logs_only_of_result|].
        intros i. apply logs_only_ret.
    + intros fn'. apply logs_only_register. reflexivity.
  - apply (logs_only_calls_made P). unfold AttributeEvents.listen.
    apply logs_only_bind.
    { apply logs_only_if; [|apply logs_only_ret].
      apply logs_only_bind; [apply logs_only_lift|]. intros d. apply logs_only_lift. }
    intros _.
    apply logs_only_bind; [apply logs_only_Events_listen; reflexivity|].
    intros _. apply logs_only_if; [|apply logs_only_ret].
    apply logs_only_bind; [apply logs_only_lift|]. intros class_.
    apply logs_only_bind; [apply logs_only_call|]. intros manager.
    apply logs_only_bind; [apply logs_only_lift|]. intros it.
    apply logs_only_bind; [apply logs_only_lift|]. intros managers.
    apply logs_only_for_each. intros mgr.
    apply logs_only_bind; [apply logs_only_lift|]. intros key.
    apply logs_only_bind; [apply logs_only_lift|]. intros attr.
    apply logs_only_Events_listen. reflexivity.
Qed.

Lemma listen_registers_under_the_given_identifier_witness :
  lc_identifier
    (ListenCall (PyInstance DemoHost.InstrumentedAttribute_ 2) "on_set"
       (PyClosure (AttributeWrap false false DemoHost.listener)) [PyBool true] [])
  = "on_set".
Proof.
  destruct (listen_registers_under_the_given_identifier
              _ DemoHost.host DemoHost.attribute0 "on_set" DemoHost.listener
              true false false true DemoHost.start
              (ListenCall (PyInstance DemoHost.InstrumentedAttribute_ 2) "on_set"
                 (PyClosure (AttributeWrap false false DemoHost.listener))
                 [PyBool true] []))
    as (_ & _ & _ & Attribute).
  apply Attribute. vm_compute. right. right. left. reflexivity.
Defined.

(** ** Classes that are not mapped *)

(** X17. A class that is not mapped is resolved differently by the two
    classes that accept mapped classes.  For a class that is no subclass of
    [Mapper] (the host classes not being metaclasses):
    [InstanceEvents.accept_with] asks [manager_of_class] and returns the
    manager only if it tests true, [None] otherwise, and [None] at once when
    [manager_of_class] returns [None]; [MapperEvents.accept_with] hands the
    class to [class_mapper] and returns or raises whatever that does. *)
Theorem accept_with_on_a_plain_class :
  forall (W : Type) (H : Host W) (c : classref) (w : world W),
    py_is (PyClass c) (mapper H) = false ->
    issubclass c (Mapper H) = false ->
    MapperEvents.accept_with H (PyClass c) w
    = call H (class_mapper H) [PyClass c] [] w /\
    (issubclass type_ (ClassManager H) = false ->
     issubclass type_ (Mapper H) = false ->
     (forall manager w1 b w2,
        call H (manager_of_class H) [PyClass c] [] w = (Ok manager, w1) ->
        truth H manager w1 = (Ok b, w2) ->
        InstanceEvents.accept_with H (PyClass c) w
        = (Ok (if b then manager else PyNone), w2)) /\
     (forall w1,
        call H (manager_of_class H) [PyClass c] [] w = (Ok PyNone, w1) ->
        InstanceEvents.accept_with H (PyClass c) w = (Ok PyNone, w1))).
Proof.
  intros W H c w NotFn NotMapper. split.
  - unfold MapperEvents.accept_with. rewrite NotFn, isinstance_class.
    unfold bind at 1. unfold of_result.
    change (py_issubclass (PyClass c) (Mapper H)) with (Ok (issubclass c (Mapper H))).
    rewrite NotMapper. reflexivity.
  - intros MetaManager MetaMapper.
    assert (R : InstanceEvents.accept_with H (PyClass c) w =
                (manager <- call H (manager_of_class H) [PyClass c] [] ;;
                 nonempty <- truth H manager ;;
                 if nonempty then ret manager else ret PyNone) w).
    { unfold InstanceEvents.accept_with.
      rewrite (isinstance_of_class c (ClassManager H)), MetaManager.
      rewrite (isinstance_of_class c (Mapper H)), MetaMapper.
      rewrite NotFn, isinstance_class.
      unfold bind at 1. unfold of_result.
      change (py_issubclass (PyClass c) (Mapper H)) with (Ok (issubclass c (Mapper H))).
      rewrite NotMapper. reflexivity. }
    split.
    + intros manager w1 b w2 E1 E2. rewrite R.
      rewrite (bind_Ok _ _ _ _ _ E1), (bind_Ok _ _ _ _ _ E2).
      destruct b; reflexivity.
    + intros w1 E1. rewrite R. rewrite (bind_Ok _ _ _ _ _ E1). reflexivity.
Qed.

Lemma accept_with_on_a_plain_class_witness :
  MapperEvents.accept_with DemoHost.host (PyClass DemoHost.Admin) DemoHost.start
  = (Raise (HostError "UnmappedClassError"), DemoHost.start) /\
  InstanceEvents.accept_with DemoHost.host (PyClass DemoHost.Admin) DemoHost.start
  = (Ok PyNone, DemoHost.start).
Proof.
  destruct (accept_with_on_a_plain_class _ DemoHost.host DemoHost.Admin DemoHost.start
              eq_refl eq_refl) as (Mapped & Managed).
  split.
  - rewrite Mapped. reflexivity.
  - destruct (Managed eq_refl eq_refl) as (_ & Unmanaged).
    apply Unmanaged. reflexivity.
Defined.

(** ** The registrations that [listen] makes *)

Section Registrations.
Context {W : Type} (H : Host W).

(** A step that returns and leaves the log alone adds nothing to the calls
    of what follows it. *)
Lemma calls_made_after {A B} (m : M W A) (k : A -> M W B) w a w1 :
  m w = (Ok a, w1) ->
  events_log w1 = events_log w ->
  calls_made (bind m k) w = calls_made (k a) w1.
Proof.
  intros E L. unfold calls_made. rewrite (bind_Ok _ _ _ _ _ E), L. reflexivity.
Qed.

(** A registration followed by anything: the registration is the first call
    made, whether or not the core accepts it. *)
Lemma calls_made_first {A} target identifier fn pos kw (k : M W A) w :
  logs_only (fun _ => True) k ->
  exists rest,
    calls_made (Events_listen H target identifier fn pos kw ;;; k) w
    = ListenCall target identifier fn pos kw :: rest.
Proof.
  intros L.
  pose proof (Events_listen_log H target identifier fn pos kw w) as L1.
  unfold bind.
  destruct (Events_listen H target identifier fn pos kw w) as [[[]|e] w1] eqn:E;
    simpl in L1.
  - destruct (L w1) as (calls & E2 & _). exists calls.
    apply calls_made_of_log. rewrite E, E2, L1, <- app_assoc. reflexivity.
  - exists []. apply calls_made_of_log. rewrite E. exact L1.
Qed.

Lemma for_each_first {A} (f : A -> pyval) identifier fn pos kw (m : A) more w :
  exists rest,
    calls_made
      (for_each (m :: more) (fun x => Events_listen H (f x) identifier fn pos kw)) w
    = ListenCall (f m) identifier fn pos kw :: rest.
Proof.
  simpl for_each. apply calls_made_first.
  apply logs_only_for_each. intros x. apply logs_only_Events_listen. exact I.
Qed.



Lemma getattr_log (v : pyval) name (w : world W) r w1 :
  getattr H v name w = (r, w1) -> events_log w1 = events_log w.
Proof.
  intros E. pose proof (lift_log (host_getattr H v name) w) as L.
  unfold getattr in E. rewrite E in L. exact L.
Qed.


Lemma host_iter_log (it : pyval) (w : world W) r w1 :
  lift (host_iter H it) w = (r, w1) -> events_log w1 = events_log w.
Proof.
  intros E. pose proof (lift_log (host_iter H it) w) as L. rewrite E in L. exact L.
Qed.

(** [MapperEvents.listen] is the registration of the callable that the flags
    choose. *)
Lemma MapperEvents_listen_register target identifier fn (raw retval : bool) ti
    propagate (w : world W) :
  (if raw then ti = None
   else MapperEvents.target_index_of H identifier w = (Ok ti, w)) ->
  MapperEvents.listen H target identifier fn raw retval propagate w =
  MapperEvents.register H target identifier
    (if raw && retval then fn else PyClosure (MapperWrap raw retval ti fn))
    propagate w.
Proof.
  intros T. destruct raw.
  - rewrite MapperEvents_listen_raw. subst ti. destruct retval; reflexivity.
  - rewrite (MapperEvents_listen_not_raw H target identifier fn retval propagate w _ T).
    reflexivity.
Qed.

(** The first call of each [listen]. *)
Lemma InstanceEvents_listen_first target identifier fn (raw propagate : bool) w :
  exists rest,
    calls_made (InstanceEvents.listen H target identifier fn raw propagate) w =
    ListenCall target identifier
      (if raw then fn else PyClosure (InstanceWrap fn))
      [] [("propagate", PyBool propagate)] :: rest.
Proof.
  unfold InstanceEvents.listen.
  replace (if negb raw then PyClosure (InstanceWrap fn) else fn)
    with (if raw then fn else PyClosure (InstanceWrap fn))
    by (destruct raw; reflexivity).
  apply calls_made_first.
  apply logs_only_if; [|apply logs_only_ret].
  apply logs_only_bind; [apply logs_only_lift|]. intros it.
  apply logs_only_bind; [apply logs_only_lift|]. intros managers.
  apply logs_only_for_each. intros mgr. apply logs_only_Events_listen. exact I.
Qed.

Lemma MapperEvents_listen_single target identifier fn (raw retval : bool) ti w :
  (if raw then ti = None
   else MapperEvents.target_index_of H identifier w = (Ok ti, w)) ->
  calls_made (MapperEvents.listen H target identifier fn raw retval false) w =
  [ListenCall target identifier
     (if raw && retval then fn else PyClosure (MapperWrap raw retval ti fn)) [] []].
Proof.
  intros T.
  rewrite (calls_made_ext _ _ _
             (MapperEvents_listen_register target identifier fn raw retval ti false w T)).
  apply Events_listen_made.
Qed.

Lemma MapperEvents_listen_first target identifier fn (raw retval : bool) ti w it w1
    m more w2 :
  (if raw then ti = None
   else MapperEvents.target_index_of H identifier w = (Ok ti, w)) ->
  getattr H target "self_and_descendants" w = (Ok it, w1) ->
  lift (host_iter H it) w1 = (Ok (m :: more), w2) ->
  exists rest,
    calls_made (MapperEvents.listen H target identifier fn raw retval true) w =
    ListenCall m identifier
      (if raw && retval then fn else PyClosure (MapperWrap raw retval ti fn))
      [] [("propagate", PyBool true)] :: rest.
Proof.
  intros T E1 E2.
  rewrite (calls_made_ext _ _ _
             (MapperEvents_listen_register target identifier fn raw retval ti true w T)).
  unfold MapperEvents.register.
  rewrite (calls_made_after _ _ _ _ _ E1 (getattr_log _ _ _ _ _ E1)).
  rewrite (calls_made_after _ _ _ _ _ E2 (host_iter_log _ _ _ _ E2)).
  apply (for_each_first (fun x => x)).
Qed.

Lemma AttributeEvents_listen_first target identifier fn
    (active_history raw retval propagate : bool) w w1 :
  (if active_history then
     dispatch <- getattr H target "dispatch" ;;
     setattr H dispatch "active_history" (PyBool true)
   else ret tt) w = (Ok tt, w1) ->
  exists rest,
    calls_made
      (AttributeEvents.listen H target identifier fn active_history raw retval
         propagate) w =
    ListenCall target identifier
      (if raw && retval then fn else PyClosure (AttributeWrap raw retval fn))
      [PyBool propagate] [] :: rest.
Proof.
  intros E0. unfold AttributeEvents.listen.
  pose proof (active_history_keeps_log H target active_history w w1 E0) as L0.
  replace (if negb raw || negb retval
           then PyClosure (AttributeWrap raw retval fn) else fn)
    with (if raw && retval then fn else PyClosure (AttributeWrap raw retval fn))
    by (destruct raw, retval; reflexivity).
  match goal with
  | |- exists rest, calls_made (bind ?m ?k) w = _ =>
      assert (C : calls_made (bind m k) w = calls_made (k tt) w1)
        by (apply (calls_made_after m k w tt w1 E0 L0))
  end.
  assert (F : exists rest,
            calls_made
              (Events_listen H target identifier
                 (if raw && retval then fn
                  else PyClosure (AttributeWrap raw retval fn))
                 [PyBool propagate] [] ;;;
               (if propagate then
                  class_ <- getattr H target "class_" ;;
                  manager <- call H (manager_of_class H) [class_] [] ;;
                  managers <- call_method H manager "subclass_managers" [PyBool true] ;;
                  managers <- lift (host_iter H managers) ;;
                  for_each managers
                    (fun mgr =>
                       key <- getattr H target "key" ;;
                       attr <- lift (host_getitem H mgr key) ;;
                       Events_listen H attr identifier
                         (if raw && retval then fn
                          else PyClosure (AttributeWrap raw retval fn))
                         [PyBool true] [])
                else ret tt)) w1
            = ListenCall target identifier
                (if raw && retval then fn
                 else PyClosure (AttributeWrap raw retval fn))
                [PyBool propagate] [] :: rest).
  { apply calls_made_first.
    apply logs_only_if; [|apply logs_only_ret].
    apply logs_only_bind; [apply logs_only_lift|]. intros class_.
    apply logs_only_bind; [apply logs_only_call|]. intros manager.
    apply logs_only_bind; [apply logs_only_lift|]. intros it.
    apply logs_only_bind; [apply logs_only_lift|]. intros managers.
    apply logs_only_for_each. intros mgr.
    apply logs_only_bind; [apply logs_only_lift|]. intros key.
    apply logs_only_bind; [apply logs_only_lift|]. intros attr.
    apply logs_only_Events_listen. exact I. }
  destruct F as [rest F]. exists rest. rewrite C. exact F.
Qed.

End Registrations.

(** ** The flags of [listen] *)

(** C3. The [raw] flag of [listen] decides what is registered.  With [raw]
    false, [InstanceEvents.listen], [MapperEvents.listen] and
    [AttributeEvents.listen] register a wrapper that calls [.obj()] on the
    state argument and hands the result to the user callback in its place:
    the first argument for instance and attribute events, the argument at
    the position of the hook's [target] parameter for mapper events.  With
    [raw] true the argument reaches the callback as it is.  The registration
    on the target is made with that callable: it is the first call of
    [InstanceEvents.listen] and [AttributeEvents.listen], the one call of
    [MapperEvents.listen] without [propagate], and the call on the first
    mapper with it. *)
Theorem raw_flag_decides_unwrapping :
  forall (W : Type) (H : Host W) (fn : pyval),
    (* InstanceEvents, raw=False *)
    (forall target identifier propagate w c,
       In c (calls_made (InstanceEvents.listen H target identifier fn false propagate) w) ->
       lc_fn c = PyClosure (InstanceWrap fn)) /\
    (forall state rest kw s,
       has_key "state" kw = false ->
       call H (PyClosure (InstanceWrap fn)) (state :: rest) kw s =
       (o <- call_method H state "obj" [] ;; call H fn (o :: rest) kw) s) /\
    (* InstanceEvents, raw=True *)
    (forall target identifier propagate w c,
       In c (calls_made (InstanceEvents.listen H target identifier fn true propagate) w) ->
       lc_fn c = fn) /\
    (* MapperEvents, raw=False *)
    (forall target identifier retval propagate w c,
       In c (calls_made
               (MapperEvents.listen H target identifier fn false retval propagate) w) ->
       exists ti,
         lc_fn c = PyClosure (MapperWrap false retval ti fn) /\
         MapperEvents.target_index_of H identifier w = (Ok ti, w)) /\
    (forall identifier self before after w,
       assoc identifier (declared_members MapperEventsC)
       = Some (self :: before ++ "target" :: after)%list ->
       ~ In "target" (self :: before) ->
       MapperEvents.target_index_of H identifier w
       = (Ok (Some (Z.of_nat (length before))), w)) /\
    (forall retval pre x post kw s,
       call H (PyClosure (MapperWrap false retval (Some (Z.of_nat (length pre))) fn))
         (pre ++ x :: post)%list kw s =
       (o <- call_method H x "obj" [] ;;
        if retval then call H fn (pre ++ o :: post)%list kw
        else call H fn (pre ++ o :: post)%list kw ;;; ret (EXT_CONTINUE H)) s) /\
    (* MapperEvents, raw=True *)
    (forall target identifier retval propagate w c,
       In c (calls_made
               (MapperEvents.listen H target identifier fn true retval propagate) w) ->
       lc_fn c = if retval then fn else PyClosure (MapperWrap true false None fn)) /\
    (forall ti arg kw s,
       call H (PyClosure (MapperWrap true false ti fn)) arg kw s =
       (call H fn arg kw ;;; ret (EXT_CONTINUE H)) s) /\
    (* AttributeEvents, raw=False *)
    (forall target identifier active_history retval propagate w c,
       In c (calls_made
               (AttributeEvents.listen H target identifier fn active_history
                  false retval propagate) w) ->
       lc_fn c = PyClosure (AttributeWrap false retval fn)) /\
    (forall retval target value rest s,
       call H (PyClosure (AttributeWrap false retval fn)) (target :: value :: rest) [] s =
       (o <- call_method H target "obj" [] ;;
        if retval then call H fn (o :: value :: rest) []
        else call H fn (o :: value :: rest) [] ;;; ret value) s) /\
    (* AttributeEvents, raw=True *)
    (forall target identifier active_history retval propagate w c,
       In c (calls_made
               (AttributeEvents.listen H target identifier fn active_history
                  true retval propagate) w) ->
       lc_fn c = if retval then fn else PyClosure (AttributeWrap true false fn)) /\
    (forall target value rest s,
       call H (PyClosure (AttributeWrap true false fn)) (target :: value :: rest) [] s =
       (call H fn (target :: value :: rest) [] ;;; ret value) s) /\
    (* the registrations that listen makes *)
    (forall target identifier (raw propagate : bool) w,
       exists rest,
         calls_made (InstanceEvents.listen H target identifier fn raw propagate) w =
         ListenCall target identifier
           (if raw then fn else PyClosure (InstanceWrap fn))
           [] [("propagate", PyBool propagate)] :: rest) /\
    (forall target identifier (raw retval : bool) ti w,
       (if raw then ti = None
        else MapperEvents.target_index_of H identifier w = (Ok ti, w)) ->
       calls_made (MapperEvents.listen H target identifier fn raw retval false) w =
       [ListenCall target identifier
          (if raw && retval then fn else PyClosure (MapperWrap raw retval ti fn))
          [] []]) /\
    (forall target identifier (raw retval : bool) ti w it w1 m more w2,
       (if raw then ti = None
        else MapperEvents.target_index_of H identifier w = (Ok ti, w)) ->
       getattr H target "self_and_descendants" w = (Ok it, w1) ->
       lift (host_iter H it) w1 = (Ok (m :: more), w2) ->
       exists rest,
         calls_made (MapperEvents.listen H target identifier fn raw retval true) w =
         ListenCall m identifier
           (if raw && retval then fn else PyClosure (MapperWrap raw retval ti fn))
           [] [("propagate", PyBool true)] :: rest) /\
    (forall target identifier (active_history raw retval propagate : bool) w w1,
       (if active_history then
          dispatch <- getattr H target "dispatch" ;;
          setattr H dispatch "active_history" (PyBool true)
        else ret tt) w = (Ok tt, w1) ->
       exists rest,
         calls_made
           (AttributeEvents.listen H target identifier fn active_history raw retval
              propagate) w =
         ListenCall target identifier
           (if raw && retval then fn else PyClosure (AttributeWrap raw retval fn))
           [PyBool propagate] [] :: rest).
Proof.
  intros W H fn. repeat apply conj.
  - intros target identifier propagate w c.
    apply (logs_only_calls_made (fun c => lc_fn c = PyClosure (InstanceWrap fn))).
    apply (InstanceEvents_listen_logs_fn H target identifier fn false propagate).
  - intros state rest kw s Hk. rewrite (call_InstanceWrap H fn state rest kw Hk).
    reflexivity.
  - intros target identifier propagate w c.
    apply (logs_only_calls_made (fun c => lc_fn c = fn)).
    apply (InstanceEvents_listen_logs_fn H target identifier fn true propagate).
  - intros target identifier retval propagate w c I.
    apply MapperEvents_listen_logs_fn in I. destruct I as (ti & E & T).
    exists ti. split; [exact E | apply T].
  - intros identifier self before after w E N.
    rewrite (target_index_of_declared H identifier _ w E).
    change (self :: before ++ "target" :: after)%list
      with ((self :: before) ++ "target" :: after)%list.
    rewrite (list_index_middle (self :: before) "target" after N).
    do 3 f_equal. simpl length. lia.
  - intros retval pre x post kw s. rewrite call_MapperWrap.
    unfold unwrap_target. simpl negb. unfold bind.
    rewrite unwrap_at_middle. unfold bind, ret.
    destruct (call_method H x "obj" [] s) as [[o|e] s1]; destruct retval; reflexivity.
  - intros target identifier retval propagate w c I.
    apply MapperEvents_listen_logs_fn in I. exact I.
  - intros ti arg kw s. rewrite call_MapperWrap. reflexivity.
  - intros target identifier active_history retval propagate w c.
    apply (logs_only_calls_made
             (fun c => lc_fn c = PyClosure (AttributeWrap false retval fn))).
    apply (AttributeEvents_listen_logs_fn H target identifier fn active_history
             false retval propagate).
  - intros retval target value rest s. rewrite call_AttributeWrap.
    simpl negb. unfold bind.
    destruct (call_method H target "obj" [] s) as [[o|e] s1]; destruct retval; reflexivity.
  - intros target identifier active_history retval propagate w c I.
    apply (logs_only_calls_made _ _ _ _
             (AttributeEvents_listen_logs_fn H target identifier fn active_history
                true retval propagate)) in I.
    destruct retval; exact I.
  - intros target value rest s. rewrite call_AttributeWrap. reflexivity.
  - intros target identifier raw propagate w. apply InstanceEvents_listen_first.
  - intros target identifier raw retval ti w T.
    apply MapperEvents_listen_single. exact T.
  - intros target identifier raw retval ti w it w1 m more w2 T E1 E2.
    apply (MapperEvents_listen_first H target identifier fn raw retval ti w it w1
             m more w2 T E1 E2).
  - intros target identifier active_history raw retval propagate w w1 E0.
    apply (AttributeEvents_listen_first H target identifier fn active_history raw
             retval propagate w w1 E0).
Qed.

Lemma raw_flag_decides_unwrapping_witness :
  (exists rest,
     calls_made
       (InstanceEvents.listen DemoHost.host DemoHost.manager0 "on_load"
          DemoHost.listener false true) DemoHost.start
     = ListenCall DemoHost.manager0 "on_load"
         (PyClosure (InstanceWrap DemoHost.listener)) [] [("propagate", PyBool true)]
       :: rest) /\
  calls_made
    (MapperEvents.listen DemoHost.host DemoHost.mapper0 "on_before_insert"
       DemoHost.listener false true false) DemoHost.start
  = [ListenCall DemoHost.mapper0 "on_before_insert"
       (PyClosure (MapperWrap false true (Some 2%Z) DemoHost.listener)) [] []] /\
  (exists rest,
     calls_made
       (AttributeEvents.listen DemoHost.host DemoHost.attribute0 "on_set"
          DemoHost.listener true false false true) DemoHost.start
     = ListenCall DemoHost.attribute0 "on_set"
         (PyClosure (AttributeWrap false false DemoHost.listener)) [PyBool true] []
       :: rest) /\
  call DemoHost.host (PyClosure (InstanceWrap DemoHost.listener))
    [DemoHost.state7; PyInt 1] [("flag", PyBool true)] DemoHost.start
  = (Ok (PyInt 42), World [] [("listener", [PyInstance DemoHost.User 7; PyInt 1])]) /\
  MapperEvents.target_index_of DemoHost.host "on_before_insert" DemoHost.start
  = (Ok (Some 2%Z), DemoHost.start).
Proof.
  destruct (raw_flag_decides_unwrapping _ DemoHost.host DemoHost.listener)
    as (_ & Inst & _ & _ & Index & _ & _ & _ & _ & _ & _ & _ & First & Single & _ & Attr).
  split; [|split; [|split; [|split]]].
  - apply (First DemoHost.manager0 "on_load" false true DemoHost.start).
  - apply (Single DemoHost.mapper0 "on_before_insert" false true (Some 2%Z)
             DemoHost.start).
    reflexivity.
  - apply (Attr DemoHost.attribute0 "on_set" true false false true DemoHost.start
             (World [] [("setattr active_history",
                         [PyInstance DemoHost.Dispatch_ 0; PyBool true])])).
    reflexivity.
  - rewrite Inst; reflexivity.
  - apply (Index "on_before_insert" "self" ["mapper"; "connection"] []).
    + reflexivity.
    + intros [E|[E|[E|[]]]]; discriminate E.
Defined.

(** C4. What [AttributeEvents.listen] registers when [retval] is false is a
    wrapper that, when it returns, has called the user callback and returns
    the [value] argument it was given, not what the callback returned.  With
    [retval] true the result of the user callback is the result: of the
    wrapper when [raw] is false, and of the callback itself, registered as
    it is, when [raw] is true.  The registration on the target, the first
    call that [listen] makes, carries that callable. *)
Theorem AttributeEvents_retval_flag_decides_value :
  forall (W : Type) (H : Host W) (fn : pyval),
    (* retval=False *)
    (forall target identifier active_history raw propagate w c,
       In c (calls_made
               (AttributeEvents.listen H target identifier fn active_history
                  raw false propagate) w) ->
       lc_fn c = PyClosure (AttributeWrap raw false fn)) /\
    (forall raw arg kw s v s',
       call H (PyClosure (AttributeWrap raw false fn)) arg kw s = (Ok v, s') ->
       exists target rest extra target' s0 v0,
         bind_call ["target"; "value"] false arg kw = Ok ([target; v], rest, extra) /\
         (if raw then ret target else call_method H target "obj" []) s
         = (Ok target', s0) /\
         call H fn (target' :: v :: rest) [] s0 = (Ok v0, s')) /\
    (forall (raw : bool) target value rest s target' s0 v0 s',
       (if raw then ret target else call_method H target "obj" []) s
       = (Ok target', s0) ->
       call H fn (target' :: value :: rest) [] s0 = (Ok v0, s') ->
       call H (PyClosure (AttributeWrap raw false fn)) (target :: value :: rest) [] s
       = (Ok value, s')) /\
    (* retval=True *)
    (forall target identifier active_history raw propagate w c,
       In c (calls_made
               (AttributeEvents.listen H target identifier fn active_history
                  raw true propagate) w) ->
       lc_fn c = if raw then fn else PyClosure (AttributeWrap false true fn)) /\
    (forall target value rest s,
       call H (PyClosure (AttributeWrap false true fn)) (target :: value :: rest) [] s =
       (o <- call_method H target "obj" [] ;; call H fn (o :: value :: rest) []) s) /\
    (* the registration that listen makes on the target *)
    (forall target identifier (active_history raw retval propagate : bool) w w1,
       (if active_history then
          dispatch <- getattr H target "dispatch" ;;
          setattr H dispatch "active_history" (PyBool true)
        else ret tt) w = (Ok tt, w1) ->
       exists rest,
         calls_made
           (AttributeEvents.listen H target identifier fn active_history raw retval
              propagate) w =
         ListenCall target identifier
           (if retval
            then (if raw then fn else PyClosure (AttributeWrap false true fn))
            else PyClosure (AttributeWrap raw false fn))
           [PyBool propagate] [] :: rest) /\
    (forall target identifier (raw retval : bool) w,
       calls_made
         (AttributeEvents.listen H target identifier fn false raw retval false) w =
       [ListenCall target identifier
          (if retval
           then (if raw then fn else PyClosure (AttributeWrap false true fn))
           else PyClosure (AttributeWrap raw false fn))
          [PyBool false] []]).
Proof.
  intros W H fn. repeat apply conj.
  - intros target identifier active_history raw propagate w c I.
    apply (logs_only_calls_made _ _ _ _
             (AttributeEvents_listen_logs_fn H target identifier fn active_history
                raw false propagate)) in I.
    rewrite orb_true_r in I. exact I.
  - intros raw arg kw s v s' R.
    change (call H (PyClosure (AttributeWrap raw false fn)) arg kw)
      with (match bind_call ["target"; "value"] false arg kw with
            | Ok ([target; value], arg, _) =>
                target <- (if negb raw then call_method H target "obj" []
                           else ret target) ;;
                if negb false then
                  call H fn (target :: value :: arg) [] ;;; ret value
                else call H fn (target :: value :: arg) []
            | Ok _ => raise TypeError
            | Raise e => raise e
            end) in R.
    destruct (bind_call ["target"; "value"] false arg kw)
      as [[[vs rest] extra]|e]; [|discriminate R].
    destruct vs as [|t [|val [|? ?]]]; try discriminate R.
    apply bind_inv_Ok in R as (t' & s0 & U & R). simpl negb in R.
    apply bind_inv_Ok in R as (v0 & s1 & C & R).
    inversion R; subst.
    exists t, rest, extra, t', s0, v0. split; [reflexivity|]. split; [|exact C].
    destruct raw; exact U.
  - intros raw target value rest s target' s0 v0 s' U C.
    rewrite call_AttributeWrap. simpl negb.
    assert (U' : (if negb raw then call_method H target "obj" [] else ret target) s
                 = (Ok target', s0)) by (destruct raw; exact U).
    rewrite (bind_Ok _ _ _ _ _ U'), (bind_Ok _ _ _ _ _ C). reflexivity.
  - intros target identifier active_history raw propagate w c I.
    apply (logs_only_calls_made _ _ _ _
             (AttributeEvents_listen_logs_fn H target identifier fn active_history
                raw true propagate)) in I.
    destruct raw; exact I.
  - intros target value rest s. rewrite call_AttributeWrap. reflexivity.
  - intros target identifier active_history raw retval propagate w w1 E0.
    destruct (AttributeEvents_listen_first H target identifier fn active_history raw
                retval propagate w w1 E0) as [rest R].
    exists rest. rewrite R. destruct raw, retval; reflexivity.
  - intros target identifier raw retval w. apply calls_made_of_log.
    unfold AttributeEvents.listen, bind, ret.
    replace (if negb raw || negb retval
             then PyClosure (AttributeWrap raw retval fn) else fn)
      with (if retval
            then (if raw then fn else PyClosure (AttributeWrap false true fn))
            else PyClosure (AttributeWrap raw false fn))
      by (destruct raw, retval; reflexivity).
    pose proof (Events_listen_log H target identifier
                  (if retval
                   then (if raw then fn else PyClosure (AttributeWrap false true fn))
                   else PyClosure (AttributeWrap raw false fn))
                  [PyBool false] [] w) as L.
    destruct (Events_listen H target identifier _ [PyBool false] [] w)
      as [[[]|e] w1]; exact L.
Qed.

Lemma AttributeEvents_retval_flag_decides_value_witness :
  (exists rest,
     calls_made
       (AttributeEvents.listen DemoHost.host DemoHost.attribute0 "on_set"
          DemoHost.listener true false false true) DemoHost.start
     = ListenCall DemoHost.attribute0 "on_set"
         (PyClosure (AttributeWrap false false DemoHost.listener)) [PyBool true] []
       :: rest) /\
  call DemoHost.host (PyClosure (AttributeWrap false false DemoHost.listener))
    [DemoHost.state7; PyStr "new"; PyStr "old"] [] DemoHost.start
  = (Ok (PyStr "new"),
     World [] [("listener", [PyInstance DemoHost.User 7; PyStr "new"; PyStr "old"])]).
Proof.
  destruct (AttributeEvents_retval_flag_decides_value _ DemoHost.host DemoHost.listener)
    as (_ & _ & Run & _ & _ & First & _).
  split.
  - apply (First DemoHost.attribute0 "on_set" true false false true DemoHost.start
             (World [] [("setattr active_history",
                         [PyInstance DemoHost.Dispatch_ 0; PyBool true])])).
    reflexivity.
  - apply (Run false DemoHost.state7 (PyStr "new") [PyStr "old"] DemoHost.start
             (PyInstance DemoHost.User 7) DemoHost.start (PyInt 42)); reflexivity.
Defined.

(** C9. In [MapperEvents.listen] with [raw] false the target index of a
    declared member is the place of its [target] parameter, and is [None]
    exactly when its signature has no such parameter.  The hooks without a
    [target] parameter are [on_instrument_class], [on_translate_row] and
    [on_create_instance]: for them the wrapper holds [None] and hands every
    argument to the user callback as it is; for every other hook the index
    is some position.  The wrapper that [listen] registers, on the target
    or on the mappers of [target.self_and_descendants], holds the index
    computed for the identifier. *)
Theorem MapperEvents_unwraps_only_hooks_with_target :
  forall (W : Type) (H : Host W),
    (forall identifier args w,
       assoc identifier (declared_members MapperEventsC) = Some args ->
       MapperEvents.target_index_of H identifier w =
       (Ok (match list_index args "target" with
            | Ok i => Some (i - 1)%Z
            | Raise _ => None
            end), w)) /\
    (forall args, (exists i, list_index args "target" = Ok i) <-> In "target" args) /\
    map fst (filter (fun m => negb (existsb (String.eqb "target") (snd m)))
               (hooks MapperEventsC))
    = ["on_instrument_class"; "on_translate_row"; "on_create_instance"] /\
    (forall identifier,
       In identifier ["on_instrument_class"; "on_translate_row"; "on_create_instance"] ->
       (forall w, MapperEvents.target_index_of H identifier w = (Ok None, w)) /\
       (forall target fn retval propagate w c,
          In c (calls_made
                  (MapperEvents.listen H target identifier fn false retval propagate) w) ->
          lc_fn c = PyClosure (MapperWrap false retval None fn))) /\
    (forall fn retval arg kw s,
       call H (PyClosure (MapperWrap false retval None fn)) arg kw s =
       (if retval then call H fn arg kw
        else call H fn arg kw ;;; ret (EXT_CONTINUE H)) s) /\
    (forall identifier args,
       In (identifier, args) (hooks MapperEventsC) ->
       In "target" args ->
       exists i, (0 <= i)%Z /\
         forall w, MapperEvents.target_index_of H identifier w = (Ok (Some i), w)) /\
    (* the wrapper that listen registers holds that index *)
    (forall identifier args target fn retval w,
       assoc identifier (declared_members MapperEventsC) = Some args ->
       calls_made (MapperEvents.listen H target identifier fn false retval false) w =
       [ListenCall target identifier
          (PyClosure
             (MapperWrap false retval
                (match list_index args "target" with
                 | Ok i => Some (i - 1)%Z
                 | Raise _ => None
                 end) fn))
          [] []]) /\
    (forall identifier args target fn retval w it w1 m more w2,
       assoc identifier (declared_members MapperEventsC) = Some args ->
       getattr H target "self_and_descendants" w = (Ok it, w1) ->
       lift (host_iter H it) w1 = (Ok (m :: more), w2) ->
       exists rest,
         calls_made (MapperEvents.listen H target identifier fn false retval true) w =
         ListenCall m identifier
           (PyClosure
              (MapperWrap false retval
                 (match list_index args "target" with
                  | Ok i => Some (i - 1)%Z
                  | Raise _ => None
                  end) fn))
           [] [("propagate", PyBool true)] :: rest).
Proof.
  intros W H.
  assert (None3 : forall identifier,
            In identifier ["on_instrument_class"; "on_translate_row"; "on_create_instance"] ->
            forall w : world W,
              MapperEvents.target_index_of H identifier w = (Ok None, w)).
  { intros identifier [<-|[<-|[<-|[]]]] w; reflexivity. }
  repeat apply conj.
  - intros identifier args w E. apply target_index_of_declared. exact E.
  - intros args. apply list_index_In.
  - reflexivity.
  - intros identifier I3. split; [exact (None3 identifier I3)|].
    intros target fn retval propagate w c I.
    apply MapperEvents_listen_logs_fn in I. destruct I as (ti & E & T).
    specialize (T w). rewrite (None3 identifier I3 w) in T.
    inversion T; subst. exact E.
  - intros fn retval arg kw s. rewrite call_MapperWrap. unfold unwrap_target.
    simpl negb. unfold bind, ret. destruct retval; reflexivity.
  - intros identifier args I T. simpl in I.
    repeat (destruct I as [I|I];
            [inversion I; subst; clear I;
             first [ exfalso; simpl in T; intuition discriminate
                   | eexists; split; [|intros w; reflexivity]; lia ]|]).
    destruct I.
  - intros identifier args target fn retval w E.
    apply (MapperEvents_listen_single H target identifier fn false retval _ w
             (target_index_of_declared H identifier args w E)).
  - intros identifier args target fn retval w it w1 m more w2 E E1 E2.
    apply (MapperEvents_listen_first H target identifier fn false retval _ w it w1
             m more w2 (target_index_of_declared H identifier args w E) E1 E2).
Qed.

Lemma MapperEvents_unwraps_only_hooks_with_target_witness :
  calls_made
    (MapperEvents.listen DemoHost.host DemoHost.mapper0 "on_translate_row"
       DemoHost.listener false true false) DemoHost.start
  = [ListenCall DemoHost.mapper0 "on_translate_row"
       (PyClosure (MapperWrap false true None DemoHost.listener)) [] []] /\
  (exists rest,
     calls_made
       (MapperEvents.listen DemoHost.host DemoHost.mapper0 "on_append_result"
          DemoHost.listener false false true) DemoHost.start
     = ListenCall DemoHost.mapper0 "on_append_result"
         (PyClosure (MapperWrap false false (Some 3%Z) DemoHost.listener))
         [] [("propagate", PyBool true)] :: rest) /\
  MapperEvents.target_index_of DemoHost.host "on_translate_row" DemoHost.start
  = (Ok None, DemoHost.start) /\
  exists i, (0 <= i)%Z /\
    forall w, MapperEvents.target_index_of DemoHost.host "on_append_result" w
              = (Ok (Some i), w).
Proof.
  destruct (MapperEvents_unwraps_only_hooks_with_target _ DemoHost.host)
    as (_ & _ & _ & NoTarget & _ & WithTarget & Single & First).
  split; [|split; [|split]].
  - apply (Single "on_translate_row" ["self"; "mapper"; "context"; "row"]).
    reflexivity.
  - apply (First "on_append_result"
             ["self"; "mapper"; "context"; "row"; "target"; "result"]
             DemoHost.mapper0 DemoHost.listener false DemoHost.start
             (PyInstance DemoHost.deque_ 0) DemoHost.start
             DemoHost.mapper0
             [PyInstance DemoHost.Mapper_ 1; PyInstance DemoHost.Mapper_ 2]
             DemoHost.start); reflexivity.
  - apply (NoTarget "on_translate_row"). simpl. tauto.
  - apply (WithTarget "on_append_result"
             ["self"; "mapper"; "context"; "row"; "target"; "result"]).
    + simpl. tauto.
    + simpl. tauto.
Defined.

(** ** Propagation *)



(** ** Errors of target resolution *)



